(** * Counseling roster: session lifecycle and data-merge engine

    A shallow embedding of [src/index.tsx]: the roster held by [App]
    (students and their counsels), the recorder, the transcription
    pipeline [handleTranscribeAndFeedback], the annotation save path
    ([handleSave] / [handleSaveEducationData]) and the selection state of
    [EducationView] and [RegisterView].

    React state is a record; every handler is a function from the state
    before the event to the state after it, and a handler that awaits is
    split at its [await] into the call and its resumption, so that other
    events can fall in between.  What the browser decides
    (the clock, the microphone, the AI round trip, the collation used by
    [localeCompare]) is an explicit argument of the handler. *)

From Stdlib Require Import List String Ascii ZArith Lia Bool.
From Stdlib Require Import Sorting.Sorted Sorting.Permutation.
From Stdlib Require Import Relations.Relation_Definitions.
From Stdlib Require Import DecimalString DecimalZ.
Import ListNotations.

Local Open Scope string_scope.
Local Open Scope list_scope.
Local Open Scope Z_scope.

Set Implicit Arguments.

(** ** JavaScript values that the handlers touch *)

(** The result of [JSON.parse], plus [undefined] for a property that is
    not there.  A number keeps its literal text. *)
#[local] Unset Elimination Schemes.
Inductive JsValue : Type :=
| JUndefined
| JNull
| JBool (b : bool)
| JNum (literal : string)
| JStr (s : string)
| JArr (items : list JsValue)
| JObj (props : list (string * JsValue)).
#[local] Set Elimination Schemes.

(** [v.key] for a parsed value: reading a property of [null] (or of
    [undefined]) throws a TypeError, an object yields the value of the
    last property of that name, every other value yields [undefined]. *)
Fixpoint lookupProp (key : string) (props : list (string * JsValue)) : JsValue :=
  match props with
  | [] => JUndefined
  | (k, v) :: rest =>
      match lookupProp key rest with
      | JUndefined => if String.eqb k key then v else JUndefined
      | later => later
      end
  end.

Definition getProp (v : JsValue) (key : string) : option JsValue :=
  match v with
  | JUndefined | JNull => None
  | JObj props => Some (lookupProp key props)
  | _ => Some JUndefined
  end.

(** [x || undefined] and [x || null] on [string | null | undefined]: the
    empty string is falsy. *)
Definition truthyString (x : option string) : option string :=
  match x with
  | Some s => if String.eqb s "" then None else Some s
  | None => None
  end.

(** [!x] on [string | null]. *)
Definition isFalsy (x : option string) : bool :=
  match truthyString x with
  | Some _ => false
  | None => true
  end.

(** [x || ''] on [string | undefined]. *)
Definition orEmpty (x : option string) : string :=
  match x with
  | Some s => s
  | None => ""
  end.

(** [Date.now().toString()]: the decimal text of an integer clock
    reading (milliseconds; such readings stay far below the magnitude
    at which JavaScript switches to exponent notation). *)
Definition toString (n : Z) : string :=
  NilZero.string_of_int (Z.to_int n).

(** The number an identifier denotes, when it is decimal text. *)
Definition parseInt (s : string) : option Z :=
  option_map Z.of_int (NilZero.int_of_string s).

(** A [Blob]: its bytes and its MIME type. *)
Module Blob.
Record t : Type := mk { data : list Byte.byte; type : string }.

(** [new Blob(chunks, { type })] concatenates the chunks. *)
Definition ofChunks (chunks : list t) (ty : string) : t :=
  mk (flat_map data chunks) ty.
End Blob.

(** ** Data model *)

Module Counsel.
(** [interface Counsel].  [transcription] and [feedback] are declared
    [string] but are filled from [JSON.parse] output, which is [any]:
    the record holds whatever value was read. *)
Record t : Type := mk {
  id : string;
  date : string;
  audio : option Blob.t;
  transcription : JsValue;
  feedback : JsValue;
  reflectionImage : option string;
  educationalNotes : option string
}.
End Counsel.

Module FormData.
(** [Omit<Student, 'id' | 'counsels'>], the state of the register form. *)
Record t : Type := mk {
  class : string;
  number : string;
  name : string;
  mbti : string;
  notes : string
}.

Definition empty : t := mk "" "" "" "" "".
End FormData.

Module Student.
Record t : Type := mk {
  id : string;
  class : string;
  number : string;
  name : string;
  mbti : string;
  notes : string;
  counsels : list Counsel.t
}.

(** [`${a.class}-${a.number}`] *)
Definition sortKey (a : t) : string :=
  (class a ++ "-" ++ number a)%string.

(** [{ ...s, counsels: cs }] *)
Definition withCounsels (s : t) (cs : list Counsel.t) : t :=
  mk (id s) (class s) (number s) (name s) (mbti s) (notes s) cs.

(** [{ ...s, ...formData }] *)
Definition withForm (s : t) (f : FormData.t) : t :=
  mk (id s) (FormData.class f) (FormData.number f) (FormData.name f)
     (FormData.mbti f) (FormData.notes f) (counsels s).
End Student.

(** [students.find(s => s.id === id)] *)
Definition findStudent (id : string) (students : list Student.t) : option Student.t :=
  List.find (fun s => String.eqb (Student.id s) id) students.

(** [counsels.find(c => c.id === id)] *)
Definition findCounsel (id : string) (counsels : list Counsel.t) : option Counsel.t :=
  List.find (fun c => String.eqb (Counsel.id c) id) counsels.

(** [students.find(s => s.id === id)] for an id held in state, which
    may be [null]. *)
Definition resolveStudent (students : list Student.t) (id : option string) : option Student.t :=
  match id with
  | Some id => findStudent id students
  | None => None
  end.

(** [student?.counsels.find(c => c.id === counselId)] *)
Definition resolveCounsel (students : list Student.t)
           (studentId counselId : option string) : option Counsel.t :=
  match resolveStudent students studentId, counselId with
  | Some s, Some id => findCounsel id (Student.counsels s)
  | _, _ => None
  end.

(** ** Collation and [Array.prototype.sort] *)

(** [String.prototype.localeCompare] is the host's collation: a number
    that is negative, zero or positive.  The roster code relies on it being
    a consistent comparator, that is a total preorder. *)
Class Collation : Type := {
  localeCompare : string -> string -> Z;
  localeCompare_total : forall a b, 0 < localeCompare a b -> localeCompare b a <= 0;
  localeCompare_trans : forall a b c,
      localeCompare a b <= 0 -> localeCompare b c <= 0 -> localeCompare a c <= 0
}.

(** Comparison of strings by character code, one instance of a collation. *)
Definition codeUnitCompare (a b : string) : Z :=
  match String.compare a b with
  | Lt => -1
  | Eq => 0
  | Gt => 1
  end.

Section Sort.
Variable A : Type.
Variable compareFn : A -> A -> Z.

(** [Array.prototype.sort(compareFn)] is a stable sort: for a
    consistent comparator its result is determined, and it is the one
    computed here by stable insertion. *)
Fixpoint insertSorted (x : A) (l : list A) : list A :=
  match l with
  | [] => [x]
  | y :: rest =>
      if compareFn x y <=? 0 then x :: l else y :: insertSorted x rest
  end.

Definition sort (l : list A) : list A :=
  fold_right insertSorted [] l.

Definition precedes (a b : A) : Prop := compareFn a b <= 0.
End Sort.

(** ** Roster store: the updaters passed to [setStudents] *)

Section Roster.
Context {collation : Collation}.

(** [(a,b) => `${a.class}-${a.number}`.localeCompare(`${b.class}-${b.number}`)] *)
Definition compareStudents (a b : Student.t) : Z :=
  localeCompare (Student.sortKey a) (Student.sortKey b).

(** The [newStudent] of [handleAddStudent]. *)
Definition newStudent (now : Z) (student : FormData.t) : Student.t :=
  Student.mk (toString now)
             (FormData.class student) (FormData.number student)
             (FormData.name student) (FormData.mbti student)
             (FormData.notes student) [].

(** [prev => [...prev, newStudent].sort(...)] *)
Definition addStudent (now : Z) (student : FormData.t)
           (prev : list Student.t) : list Student.t :=
  sort compareStudents (prev ++ [newStudent now student]).

(** [prev => prev.map(s => s.id === studentToUpdate.id ? studentToUpdate : s).sort(...)] *)
Definition updateStudent (studentToUpdate : Student.t)
           (prev : list Student.t) : list Student.t :=
  sort compareStudents
       (map (fun s => if String.eqb (Student.id s) (Student.id studentToUpdate)
                      then studentToUpdate else s) prev).
End Roster.

(** The updater of [handleTranscribeAndFeedback]:
    [prev => prev.map(s => s.id === selectedStudentId
                           ? { ...s, counsels: [newCounsel, ...s.counsels] } : s)] *)
Definition prependCounsel (selectedStudentId : string) (newCounsel : Counsel.t)
           (prev : list Student.t) : list Student.t :=
  map (fun s => if String.eqb (Student.id s) selectedStudentId
                then Student.withCounsels s (newCounsel :: Student.counsels s)
                else s) prev.

(** [{ ...counsel, reflectionImage: image || undefined, educationalNotes: notes }] *)
Definition annotate (image : option string) (notes : string) (counsel : Counsel.t) : Counsel.t :=
  Counsel.mk (Counsel.id counsel) (Counsel.date counsel) (Counsel.audio counsel)
             (Counsel.transcription counsel) (Counsel.feedback counsel)
             (truthyString image) (Some notes).

(** The updater of [handleSaveEducationData]. *)
Definition saveEducationData (studentId counselId : string)
           (image : option string) (notes : string)
           (prev : list Student.t) : list Student.t :=
  map (fun student =>
         if negb (String.eqb (Student.id student) studentId) then student
         else Student.withCounsels student
                (map (fun counsel =>
                        if negb (String.eqb (Counsel.id counsel) counselId) then counsel
                        else annotate image notes counsel)
                     (Student.counsels student)))
      prev.

(** ** The capture device and [MediaRecorder] objects

    Every granted [getUserMedia] call yields a fresh stream and every
    [new MediaRecorder(stream)] a fresh object; [mediaRecorder.current]
    only refers to the latest one.  The table below has one entry per
    granted stream, in the order of the grants, so that streams and
    recorders no longer referred to stay visible. *)
Module MediaRecorder.
Inductive RecordingState : Type := inactive | recording | paused.

Record t : Type := mk {
  (** [state] of the recorder built on the stream; [inactive] also when
      the constructor threw and there is no recorder *)
  state : RecordingState;
  (** the tracks of the stream are still live *)
  tracksLive : bool;
  (** [stop()] was called and the [dataavailable] and [stop] events it
      queued are still to be fired *)
  stopQueued : bool
}.

Definition isRecordingState (r : t) : bool :=
  match state r with
  | recording => true
  | _ => false
  end.

(** [recorder.stop()] on a recording recorder. *)
Definition stop (r : t) : t := mk inactive (tracksLive r) true.
End MediaRecorder.

(** How the [try] block of [startRecording] goes on once
    [getUserMedia] has answered: the stream is granted and the recorder
    built and started; the stream is granted but [new MediaRecorder(stream)]
    throws; the stream is granted, the recorder built, but [start()] throws;
    or the stream is refused. *)
Inductive DeviceAnswer : Type :=
| Granted
| ConstructorThrows (error : string)
| StartThrows (error : string)
| Denied (error : string).

(** [l] with the element at index [i] replaced. *)
Fixpoint setNth (A : Type) (i : nat) (x : A) (l : list A) : list A :=
  match l, i with
  | [], _ => []
  | _ :: rest, O => x :: rest
  | y :: rest, S j => y :: setNth j x rest
  end.

(** The first recorder whose stop events are still to be fired. *)
Fixpoint firstQueued (l : list MediaRecorder.t) : option nat :=
  match l with
  | [] => None
  | r :: rest =>
      if MediaRecorder.stopQueued r then Some O
      else option_map S (firstQueued rest)
  end.

(** What a call of [handleTranscribeAndFeedback] that is awaiting its
    reply has closed over. *)
Module PendingRun.
Record t : Type := mk {
  students : list Student.t;
  selectedStudentId : string;
  audioBlob : Blob.t
}.
End PendingRun.

(** ** State of [App] *)

Module App.
(** The hooks of [App] that the handlers below read or write
    ([activeTab], [isMobile] and [expandedCounselId] only drive
    rendering), the two refs, the table of streams and recorders, the
    calls that are suspended at an [await] ([startRecording] on
    [getUserMedia], [handleTranscribeAndFeedback] on its round trip), and
    what was shown through [alert] and [console.error], oldest first. *)
Record t : Type := mk {
  students : list Student.t;
  selectedStudentId : option string;
  isRecording : bool;
  audioBlob : option Blob.t;
  isLoading : bool;
  mediaRecorder : option nat;
  audioChunks : list Blob.t;
  recorders : list MediaRecorder.t;
  pendingStarts : nat;
  pendingRuns : list PendingRun.t;
  alerts : list string;
  consoleErrors : list string
}.

(** The state at mount. *)
Definition initial : t := mk [] None false None false None [] [] 0 [] [] [].

Definition setStudents (f : list Student.t -> list Student.t) (a : t) : t :=
  mk (f (students a)) (selectedStudentId a) (isRecording a) (audioBlob a)
     (isLoading a) (mediaRecorder a) (audioChunks a) (recorders a)
     (pendingStarts a) (pendingRuns a) (alerts a) (consoleErrors a).

Definition setSelectedStudentId (v : option string) (a : t) : t :=
  mk (students a) v (isRecording a) (audioBlob a)
     (isLoading a) (mediaRecorder a) (audioChunks a) (recorders a)
     (pendingStarts a) (pendingRuns a) (alerts a) (consoleErrors a).

Definition setIsRecording (v : bool) (a : t) : t :=
  mk (students a) (selectedStudentId a) v (audioBlob a)
     (isLoading a) (mediaRecorder a) (audioChunks a) (recorders a)
     (pendingStarts a) (pendingRuns a) (alerts a) (consoleErrors a).

Definition setAudioBlob (v : option Blob.t) (a : t) : t :=
  mk (students a) (selectedStudentId a) (isRecording a) v
     (isLoading a) (mediaRecorder a) (audioChunks a) (recorders a)
     (pendingStarts a) (pendingRuns a) (alerts a) (consoleErrors a).

Definition setIsLoading (v : bool) (a : t) : t :=
  mk (students a) (selectedStudentId a) (isRecording a) (audioBlob a)
     v (mediaRecorder a) (audioChunks a) (recorders a)
     (pendingStarts a) (pendingRuns a) (alerts a) (consoleErrors a).

Definition setMediaRecorder (v : option nat) (a : t) : t :=
  mk (students a) (selectedStudentId a) (isRecording a) (audioBlob a)
     (isLoading a) v (audioChunks a) (recorders a)
     (pendingStarts a) (pendingRuns a) (alerts a) (consoleErrors a).

Definition setAudioChunks (v : list Blob.t) (a : t) : t :=
  mk (students a) (selectedStudentId a) (isRecording a) (audioBlob a)
     (isLoading a) (mediaRecorder a) v (recorders a)
     (pendingStarts a) (pendingRuns a) (alerts a) (consoleErrors a).

Definition setRecorders (v : list MediaRecorder.t) (a : t) : t :=
  mk (students a) (selectedStudentId a) (isRecording a) (audioBlob a)
     (isLoading a) (mediaRecorder a) (audioChunks a) v
     (pendingStarts a) (pendingRuns a) (alerts a) (consoleErrors a).

Definition setPendingStarts (v : nat) (a : t) : t :=
  mk (students a) (selectedStudentId a) (isRecording a) (audioBlob a)
     (isLoading a) (mediaRecorder a) (audioChunks a) (recorders a)
     v (pendingRuns a) (alerts a) (consoleErrors a).

Definition setPendingRuns (v : list PendingRun.t) (a : t) : t :=
  mk (students a) (selectedStudentId a) (isRecording a) (audioBlob a)
     (isLoading a) (mediaRecorder a) (audioChunks a) (recorders a)
     (pendingStarts a) v (alerts a) (consoleErrors a).

(** [alert(message)] *)
Definition alert (message : string) (a : t) : t :=
  mk (students a) (selectedStudentId a) (isRecording a) (audioBlob a)
     (isLoading a) (mediaRecorder a) (audioChunks a) (recorders a)
     (pendingStarts a) (pendingRuns a) (alerts a ++ [message]) (consoleErrors a).

(** [console.error(label, error)] *)
Definition consoleError (label error : string) (a : t) : t :=
  mk (students a) (selectedStudentId a) (isRecording a) (audioBlob a)
     (isLoading a) (mediaRecorder a) (audioChunks a) (recorders a)
     (pendingStarts a) (pendingRuns a) (alerts a)
     (consoleErrors a ++ [(label ++ " " ++ error)%string]).

(** Streams whose tracks were never stopped: captures still holding the
    device. *)
Definition liveCaptures (a : t) : nat :=
  List.length (filter MediaRecorder.tracksLive (recorders a)).
End App.

(** ** Session recorder *)

(** [startRecording] up to its [await]: the call writes nothing before
    [getUserMedia] has answered. *)
Definition startRecordingCall (app : App.t) : App.t :=
  App.setPendingStarts (S (App.pendingStarts app)) app.

(** The [catch] block of [startRecording]. *)
Definition startRecordingFailed (error : string) (app : App.t) : App.t :=
  App.alert "마이크 사용 권한이 필요합니다. 브라우저 설정을 확인해주세요."
            (App.consoleError "마이크 접근에 실패했습니다:" error app).

(** The rest of a suspended [startRecording] once the device has
    answered.  A throw after the grant leaves the stream as it is: the
    [catch] block does not stop its tracks. *)
Definition startRecordingResume (answer : DeviceAnswer) (app : App.t) : App.t :=
  let app := App.setPendingStarts (Nat.pred (App.pendingStarts app)) app in
  let fresh := List.length (App.recorders app) in
  match answer with
  | Granted =>
      let app := App.setRecorders
                   (App.recorders app
                    ++ [MediaRecorder.mk MediaRecorder.recording true false])
                   app in
      let app := App.setMediaRecorder (Some fresh) app in
      let app := App.setAudioChunks [] app in
      let app := App.setIsRecording true app in
      App.setAudioBlob None app
  | ConstructorThrows error =>
      startRecordingFailed error
        (App.setRecorders
           (App.recorders app ++ [MediaRecorder.mk MediaRecorder.inactive true false])
           app)
  | StartThrows error =>
      let app := App.setRecorders
                   (App.recorders app
                    ++ [MediaRecorder.mk MediaRecorder.inactive true false])
                   app in
      let app := App.setMediaRecorder (Some fresh) app in
      let app := App.setAudioChunks [] app in
      startRecordingFailed error app
  | Denied error => startRecordingFailed error app
  end.

(** [startRecording] with nothing happening while it awaits. *)
Definition startRecording (answer : DeviceAnswer) (app : App.t) : App.t :=
  startRecordingResume answer (startRecordingCall app).

(** The object [mediaRecorder.current] refers to. *)
Definition currentRecorder (app : App.t) : option MediaRecorder.t :=
  match App.mediaRecorder app with
  | Some current => nth_error (App.recorders app) current
  | None => None
  end.

(** [mediaRecorder.current && mediaRecorder.current.state === "recording"] *)
Definition capturing (app : App.t) : bool :=
  match currentRecorder app with
  | Some recorder => MediaRecorder.isRecordingState recorder
  | None => false
  end.

(** [stopRecording]: [stop()] makes the recorder inactive at once and
    queues its events. *)
Definition stopRecording (app : App.t) : App.t :=
  match App.mediaRecorder app, currentRecorder app with
  | Some current, Some recorder =>
      if MediaRecorder.isRecordingState recorder then
        App.setIsRecording false
          (App.setRecorders
             (setNth current (MediaRecorder.stop recorder) (App.recorders app))
             app)
      else app
  | _, _ => app
  end.

(** The events of a stopped recorder: [ondataavailable] pushes the
    captured [data] onto [audioChunks.current], then [onstop] makes the
    payload of whatever [audioChunks.current] holds and stops the tracks of
    the recorder's own stream. *)
Definition recorderStopped (data : Blob.t) (app : App.t) : App.t :=
  match firstQueued (App.recorders app) with
  | Some stopped =>
      let chunks := App.audioChunks app ++ [data] in
      let app := App.setAudioChunks chunks app in
      let app := App.setAudioBlob (Some (Blob.ofChunks chunks "audio/webm")) app in
      App.setRecorders
        (setNth stopped (MediaRecorder.mk MediaRecorder.inactive false false)
                (App.recorders app))
        app
  | None => app
  end.

(** ** Handlers of [App] on the roster *)

Section RosterHandlers.
Context {collation : Collation}.

Definition handleAddStudent (now : Z) (student : FormData.t) (app : App.t) : App.t :=
  App.alert (FormData.name student ++ " 학생 정보가 등록되었습니다.")%string
            (App.setStudents (addStudent now student) app).

Definition handleUpdateStudent (studentToUpdate : Student.t) (app : App.t) : App.t :=
  App.alert (Student.name studentToUpdate ++ " 학생 정보가 수정되었습니다.")%string
            (App.setStudents (updateStudent studentToUpdate) app).
End RosterHandlers.

Definition handleSaveEducationData (studentId counselId : string)
           (image : option string) (notes : string) (app : App.t) : App.t :=
  App.setStudents (saveEducationData studentId counselId image notes) app.

(** ** Transcription pipeline *)

(** Completion of a block: a value, or a thrown error. *)
Inductive Completion (A : Type) : Type :=
| Normal (value : A)
| Throw (error : string).
Arguments Throw {A} error.

Definition bind (A B : Type) (c : Completion A) (k : A -> Completion B) : Completion B :=
  match c with
  | Normal a => k a
  | Throw e => Throw e
  end.

Notation "x <- c ;; k" := (bind c (fun x => k))
  (at level 61, c at next level, right associativity).

(** What came back from [ai.models.generateContent] and what
    [JSON.parse(response.text)] made of it. *)
Inductive Reply : Type :=
| Rejected (error : string)       (* the awaited call throws *)
| Unparseable (error : string)    (* [JSON.parse] throws: the text is not JSON *)
| Parsed (jsonResponse : JsValue).

Module RoundTrip.
(** Everything the environment contributes to one run. *)
Record t : Type := mk {
  base64Audio : Completion string;   (* [blobToBase64(audioBlob)] *)
  reply : Reply;
  now : Z;                           (* [Date.now()] *)
  localeNow : string                 (* [new Date().toLocaleString('ko-KR')] *)
}.
End RoundTrip.

(** [jsonResponse.key] *)
Definition readProp (jsonResponse : JsValue) (key : string) : Completion JsValue :=
  match getProp jsonResponse key with
  | Some v => Normal v
  | None => Throw "TypeError: Cannot read properties of null"
  end.

(** The [try] block up to and including [newCounsel], over the values
    the handler closed over ([students], [selectedStudentId],
    [audioBlob]).  The request only carries the audio and the prompt to
    the service, whose answer is [RoundTrip.reply]. *)
Definition buildCounsel (students : list Student.t) (selectedStudentId : string)
           (audioBlob : Blob.t) (env : RoundTrip.t) : Completion Counsel.t :=
  student <- match findStudent selectedStudentId students with
             | Some s => Normal s
             | None => Throw "Error: Student not found"
             end ;;
  base64Audio <- RoundTrip.base64Audio env ;;
  jsonResponse <- match RoundTrip.reply env with
                  | Rejected error => Throw error
                  | Unparseable error => Throw error
                  | Parsed v => Normal v
                  end ;;
  transcription <- readProp jsonResponse "transcription" ;;
  feedback <- readProp jsonResponse "feedback" ;;
  Normal (Counsel.mk (toString (RoundTrip.now env)) (RoundTrip.localeNow env)
                     (Some audioBlob) transcription feedback None None).

(** The message of the [catch] block. *)
Definition analysisFailed : string := "AI 분석에 실패했습니다. 다시 시도해주세요.".

(** The rest of the handler once the [try] block has completed: the
    state updates of the success path or the [catch], then [finally]. *)
Definition settle (selectedStudentId : string) (outcome : Completion Counsel.t)
           (app : App.t) : App.t :=
  let app :=
    match outcome with
    | Normal newCounsel =>
        App.setAudioBlob None
          (App.setStudents (prependCounsel selectedStudentId newCounsel) app)
    | Throw error =>
        App.alert analysisFailed
                  (App.consoleError "AI 분석 중 오류 발생:" error app)
    end in
  App.setIsLoading false app.

(** [handleTranscribeAndFeedback] invoked in state [app].  The handler
    is asynchronous: [meanwhile] is whatever other handlers did to the
    state while it was awaiting. *)
Definition handleTranscribeAndFeedbackAsync (env : RoundTrip.t)
           (meanwhile : App.t -> App.t) (app : App.t) : App.t :=
  match App.audioBlob app, truthyString (App.selectedStudentId app) with
  | Some audioBlob, Some selectedStudentId =>
      settle selectedStudentId
             (buildCounsel (App.students app) selectedStudentId audioBlob env)
             (meanwhile (App.setIsLoading true app))
  | _, _ => app
  end.

(** The run with nothing else happening in between. *)
Definition handleTranscribeAndFeedback (env : RoundTrip.t) (app : App.t) : App.t :=
  handleTranscribeAndFeedbackAsync env (fun a => a) app.

(** The completion of the [try] block of a run started in [app], when
    the run gets past its first line. *)
Definition runOutcome (env : RoundTrip.t) (app : App.t) : option (Completion Counsel.t) :=
  match App.audioBlob app, truthyString (App.selectedStudentId app) with
  | Some audioBlob, Some selectedStudentId =>
      Some (buildCounsel (App.students app) selectedStudentId audioBlob env)
  | _, _ => None
  end.

(** [handleTranscribeAndFeedback] up to its first [await]: the guard,
    [setIsLoading(true)] and the lookup of the student, which throws into
    the [catch] block at once; otherwise the call is suspended with what it
    closed over. *)
Definition handleTranscribeAndFeedbackCall (app : App.t) : App.t :=
  match App.audioBlob app, truthyString (App.selectedStudentId app) with
  | Some audioBlob, Some selectedStudentId =>
      let loading := App.setIsLoading true app in
      match findStudent selectedStudentId (App.students app) with
      | Some _ =>
          App.setPendingRuns
            (App.pendingRuns app
             ++ [PendingRun.mk (App.students app) selectedStudentId audioBlob])
            loading
      | None => settle selectedStudentId (Throw "Error: Student not found") loading
      end
  | _, _ => app
  end.

(** The rest of the oldest suspended run once the environment has
    answered. *)
Definition handleTranscribeAndFeedbackResume (env : RoundTrip.t) (app : App.t) : App.t :=
  match App.pendingRuns app with
  | run :: rest =>
      settle (PendingRun.selectedStudentId run)
             (buildCounsel (PendingRun.students run) (PendingRun.selectedStudentId run)
                           (PendingRun.audioBlob run) env)
             (App.setPendingRuns rest app)
  | [] => app
  end.

(** ** [RegisterView] *)

Module RegisterView.
Record t : Type := mk {
  formData : FormData.t;
  editingStudentId : option string
}.

Definition initial : t := mk FormData.empty None.

(** [students.find(s => s.id === editingStudentId)] *)
Definition editingStudent (students : list Student.t) (v : t) : option Student.t :=
  resolveStudent students (editingStudentId v).

Definition handleStudentSelect (students : list Student.t) (studentId : string) (v : t) : t :=
  match findStudent studentId students with
  | Some studentToEdit =>
      mk (FormData.mk (Student.class studentToEdit) (Student.number studentToEdit)
                      (Student.name studentToEdit) (Student.mbti studentToEdit)
                      (Student.notes studentToEdit))
         (Some studentId)
  | None => v
  end.

Definition handleCancelEdit (v : t) : t := mk FormData.empty None.

(** The [name] attribute of the input that fired [handleChange]. *)
Inductive Field : Type := class | number | name | mbti | notes.

Definition handleChange (field : Field) (value : string) (v : t) : t :=
  let f := formData v in
  let f' :=
    match field with
    | class => FormData.mk value (FormData.number f) (FormData.name f) (FormData.mbti f) (FormData.notes f)
    | number => FormData.mk (FormData.class f) value (FormData.name f) (FormData.mbti f) (FormData.notes f)
    | name => FormData.mk (FormData.class f) (FormData.number f) value (FormData.mbti f) (FormData.notes f)
    | mbti => FormData.mk (FormData.class f) (FormData.number f) (FormData.name f) value (FormData.notes f)
    | notes => FormData.mk (FormData.class f) (FormData.number f) (FormData.name f) (FormData.mbti f) value
    end in
  mk f' (editingStudentId v).

(** [!formData.class || !formData.number || !formData.name] *)
Definition missingRequired (f : FormData.t) : bool :=
  String.eqb (FormData.class f) "" || String.eqb (FormData.number f) ""
  || String.eqb (FormData.name f) "".

Section Submit.
Context {collation : Collation}.

(** [handleSubmit]; [now] is the clock reading should a student be
    created. *)
Definition handleSubmit (now : Z) (st : t * App.t) : t * App.t :=
  let (v, app) := st in
  if missingRequired (formData v) then
    (v, App.alert "반, 번호, 이름은 필수 항목입니다." app)
  else
    let app' :=
      match editingStudent (App.students app) v with
      | Some editing => handleUpdateStudent (Student.withForm editing (formData v)) app
      | None => handleAddStudent now (formData v) app
      end in
    (handleCancelEdit v, app').
End Submit.
End RegisterView.

(** ** [EducationView] *)

Module EducationView.
Record t : Type := mk {
  selectedStudentId : option string;
  selectedCounselId : option string;
  image : option string;
  notes : string;
  isModified : bool
}.

Definition initial : t := mk None None None "" false.

Definition selectedStudent (students : list Student.t) (v : t) : option Student.t :=
  resolveStudent students (selectedStudentId v).

Definition selectedCounsel (students : list Student.t) (v : t) : option Counsel.t :=
  resolveCounsel students (selectedStudentId v) (selectedCounselId v).

(** The body of [useEffect(..., [selectedCounsel])], which React runs
    after a render in which [selectedCounsel] is another object than in
    the render before. *)
Definition onSelectedCounsel (counsel : option Counsel.t) (v : t) : t :=
  match counsel with
  | Some c =>
      mk (selectedStudentId v) (selectedCounselId v)
         (truthyString (Counsel.reflectionImage c))
         (orEmpty (Counsel.educationalNotes c)) false
  | None =>
      mk (selectedStudentId v) (selectedCounselId v) None "" (isModified v)
  end.

Definition handleStudentClick (studentId : option string) (v : t) : t :=
  mk studentId None (image v) (notes v) (isModified v).

Definition handleCounselClick (counselId : string) (v : t) : t :=
  mk (selectedStudentId v) (Some counselId) (image v) (notes v) (isModified v).

(** The back button of the form: [() => setSelectedCounselId(null)]. *)
Definition backToCounselList (v : t) : t :=
  mk (selectedStudentId v) None (image v) (notes v) (isModified v).

(** [handleImageChange] once the reader has loaded the chosen file as
    a data URL; [None] when no file was chosen. *)
Definition handleImageChange (file : option string) (v : t) : t :=
  match file with
  | Some dataUrl =>
      mk (selectedStudentId v) (selectedCounselId v) (Some dataUrl) (notes v) true
  | None => v
  end.

Definition handleNotesChange (value : string) (v : t) : t :=
  mk (selectedStudentId v) (selectedCounselId v) (image v) value true.

Definition handleSave (st : t * App.t) : t * App.t :=
  let (v, app) := st in
  match truthyString (selectedStudentId v), truthyString (selectedCounselId v), isModified v with
  | Some studentId, Some counselId, true =>
      (mk (selectedStudentId v) (selectedCounselId v) (image v) (notes v) false,
       App.alert "저장되었습니다."
                 (handleSaveEducationData studentId counselId (image v) (notes v) app))
  | _, _, _ => st
  end.

(** What the user can do in the view. *)
Inductive Event : Type :=
| StudentClick (studentId : option string)
| CounselClick (counselId : string)
| BackToCounselList
| ImageChange (file : option string)
| NotesChange (value : string)
| Save.

(** Whether two renders resolve the focus to the same counsel object
    of an unchanged roster: both to none, or both to the counsel of
    one id. *)
Definition sameCounsel (before after : option Counsel.t) : bool :=
  match before, after with
  | None, None => true
  | Some b, Some a => String.eqb (Counsel.id b) (Counsel.id a)
  | _, _ => false
  end.

(** [handleSave] gets past its guard. *)
Definition canSave (v : t) : bool :=
  match truthyString (selectedStudentId v), truthyString (selectedCounselId v), isModified v with
  | Some _, Some _, true => true
  | _, _, _ => false
  end.

(** One event and the render after it.  The effect runs when the
    focused counsel is another object than before: the focus moved, or
    the focused counsel was rebuilt by a save. *)
Definition step (e : Event) (st : t * App.t) : t * App.t :=
  let (v, app) := st in
  let before := selectedCounsel (App.students app) v in
  let '(v', app') :=
    match e with
    | StudentClick studentId => (handleStudentClick studentId v, app)
    | CounselClick counselId => (handleCounselClick counselId v, app)
    | BackToCounselList => (backToCounselList v, app)
    | ImageChange file => (handleImageChange file v, app)
    | NotesChange value => (handleNotesChange value v, app)
    | Save => handleSave (v, app)
    end in
  let after := selectedCounsel (App.students app') v' in
  let rebuilt :=
    match e, before with
    | Save, Some _ => canSave v
    | _, _ => false
    end in
  ((if negb (sameCounsel before after) || rebuilt
    then onSelectedCounsel after v' else v'), app').

Definition run (events : list Event) (st : t * App.t) : t * App.t :=
  fold_left (fun st e => step e st) events st.
End EducationView.

(** ** The log tab of [App] *)

Module LogView.
(** What happens on the log tab: the clicks of the user, and the
    moments at which a suspended call is resumed or a stopped recorder
    fires its events. *)
Inductive Event : Type :=
| SelectStudent (studentId : string)
| BackToStudentList
| StartClick
| DeviceAnswers (answer : DeviceAnswer)
| StopClick
| RecorderStopped (data : Blob.t)
| TranscribeClick
| ReplyArrives (env : RoundTrip.t).

(** [students.find(s => s.id === selectedStudentId)] of [App]. *)
Definition selectedStudent (app : App.t) : option Student.t :=
  resolveStudent (App.students app) (App.selectedStudentId app).

(** The event can happen: for a click, its control is rendered and
    enabled; for the others, there is a call or a recorder waiting for
    it. *)
Definition offered (e : Event) (app : App.t) : bool :=
  match e with
  | SelectStudent studentId =>
      existsb (fun s => String.eqb (Student.id s) studentId) (App.students app)
  | BackToStudentList => negb (isFalsy (App.selectedStudentId app))
  | StartClick =>
      (if selectedStudent app is Some _ then true else false)
      && negb (App.isRecording app) && negb (App.isLoading app)
  | DeviceAnswers _ => negb (Nat.eqb (App.pendingStarts app) 0)
  | StopClick =>
      (if selectedStudent app is Some _ then true else false)
      && App.isRecording app
  | RecorderStopped _ =>
      if firstQueued (App.recorders app) is Some _ then true else false
  | TranscribeClick =>
      (if selectedStudent app is Some _ then true else false)
      && (if App.audioBlob app is Some _ then true else false)
      && negb (App.isLoading app)
  | ReplyArrives _ =>
      if App.pendingRuns app is _ :: _ then true else false
  end.

Definition handle (e : Event) (app : App.t) : App.t :=
  match e with
  | SelectStudent studentId => App.setSelectedStudentId (Some studentId) app
  | BackToStudentList => App.setSelectedStudentId None app
  | StartClick => startRecordingCall app
  | DeviceAnswers answer => startRecordingResume answer app
  | StopClick => stopRecording app
  | RecorderStopped data => recorderStopped data app
  | TranscribeClick => handleTranscribeAndFeedbackCall app
  | ReplyArrives env => handleTranscribeAndFeedbackResume env app
  end.

(** An event has its effect only when it can happen. *)
Definition step (e : Event) (app : App.t) : App.t :=
  if offered e app then handle e app else app.

Definition run (events : list Event) (app : App.t) : App.t :=
  fold_left (fun a e => step e a) events app.
End LogView.

(** ** The roster store as a whole *)

(** The four ways in which [App] rewrites [students]. *)
Inductive RosterOp : Type :=
| Register (now : Z) (student : FormData.t)
| Update (studentToUpdate : Student.t)
| PrependSession (studentId : string) (newCounsel : Counsel.t)
| PatchSession (studentId counselId : string) (image : option string) (notes : string).

Section RosterOps.
Context {collation : Collation}.

Definition applyOp (op : RosterOp) (prev : list Student.t) : list Student.t :=
  match op with
  | Register now student => addStudent now student prev
  | Update studentToUpdate => updateStudent studentToUpdate prev
  | PrependSession studentId newCounsel => prependCounsel studentId newCounsel prev
  | PatchSession studentId counselId image notes =>
      saveEducationData studentId counselId image notes prev
  end.

(** The roster after a sequence of rewrites of the empty roster. *)
Definition rosterAfter (ops : list RosterOp) : list Student.t :=
  fold_left (fun prev op => applyOp op prev) ops [].

(** The order the roster is kept in: by the text [class-number]. *)
Definition keyPrecedes (a b : Student.t) : Prop :=
  precedes compareStudents a b.

(** Order on the pair (class, number): by class, and by number among
    equal classes, each compared by the collation. *)
Definition pairPrecedes (a b : Student.t) : bool :=
  (localeCompare (Student.class a) (Student.class b) <? 0)
  || ((localeCompare (Student.class a) (Student.class b) =? 0)
      && (localeCompare (Student.number a) (Student.number b) <=? 0)).
End RosterOps.

(** ** Identifiers *)

(** [Issued now id]: [id] is the identifier given to a student or to a
    counsel created when the clock read [now]. *)
Inductive Issued : Z -> string -> Prop :=
| IssuedStudent (now : Z) (student : FormData.t) :
    Issued now (Student.id (newStudent now student))
| IssuedCounsel (students : list Student.t) (selectedStudentId : string)
                (audioBlob : Blob.t) (env : RoundTrip.t) (newCounsel : Counsel.t) :
    buildCounsel students selectedStudentId audioBlob env = Normal newCounsel ->
    Issued (RoundTrip.now env) (Counsel.id newCounsel).

(** ** What a save may change *)




(** Replies on which the [try] block throws whatever the rest: the call
    failed, the text is not JSON, or it is the JSON text [null]. *)
Definition malformed (r : Reply) : bool :=
  match r with
  | Rejected _ | Unparseable _ => true
  | Parsed JNull | Parsed JUndefined => true
  | Parsed _ => false
  end.

(** A parsed reply without the property [key]. *)
Definition lacks (key : string) (r : Reply) : bool :=
  match r with
  | Parsed v =>
      match getProp v key with
      | Some JUndefined => true
      | _ => false
      end
  | _ => false
  end.

(** ** Shape of the recorder state *)

(** A recorder that was stopped and has fired its events: inactive, its
    stream released. *)
Definition released (r : MediaRecorder.t) : Prop :=
  r = MediaRecorder.mk MediaRecorder.inactive false false.

(** While [isRecording], the latest recorder is the current one and the
    only one capturing; otherwise every recorder was stopped. *)
Definition recorderShape (app : App.t) : Prop :=
  if App.isRecording app
  then exists olds,
      App.recorders app
      = olds ++ [MediaRecorder.mk MediaRecorder.recording true false] /\
      App.mediaRecorder app = Some (List.length olds) /\
      Forall released olds
  else Forall released (App.recorders app).

(** The shape of the recorder, no payload pending while recording, and
    no call suspended. *)
Definition recorderSound (app : App.t) : Prop :=
  recorderShape app /\
  (App.isRecording app = true -> App.audioBlob app = None) /\
  App.pendingStarts app = 0%nat /\
  App.pendingRuns app = [] /\
  App.isLoading app = false.

(** ** Registrations *)

(** The identifiers given out by the registrations among [ops], in the
    order of the calls. *)
Definition registeredIds (ops : list RosterOp) : list string :=
  flat_map (fun op => match op with
                      | Register now _ => [toString now]
                      | _ => []
                      end) ops.

(** The form as [handleStudentSelect] fills it for a student. *)
Definition formOf (s : Student.t) : FormData.t :=
  FormData.mk (Student.class s) (Student.number s) (Student.name s)
              (Student.mbti s) (Student.notes s).

(** ** Text helpers of the handlers *)

(** [s.split(sep)] for a one-character separator: the pieces between
    the separators, at least one piece. *)
Fixpoint split (sep : ascii) (s : string) : list string :=
  match s with
  | EmptyString => [EmptyString]
  | String c rest =>
      if Ascii.eqb c sep then EmptyString :: split sep rest
      else match split sep rest with
           | piece :: pieces => String c piece :: pieces
           | [] => [String c EmptyString]
           end
  end.

(** The character does not occur in the text. *)
Fixpoint freeOf (c : ascii) (s : string) : bool :=
  match s with
  | EmptyString => true
  | String d rest => negb (Ascii.eqb d c) && freeOf c rest
  end.

(** How the [FileReader] of [blobToBase64] ends: [onloadend] with
    [reader.result] (a string, or something else), or [onerror]. *)
Inductive ReaderOutcome : Type :=
| LoadEnd (result : option string)
| ReadError (error : string).

(** [blobToBase64]: the promise resolves with
    [reader.result.split(',')[1]], which is [undefined] when there is no
    second piece, or rejects. *)
Definition blobToBase64 (outcome : ReaderOutcome) : Completion (option string) :=
  match outcome with
  | LoadEnd (Some result) => Normal (nth_error (split "," result) 1)
  | LoadEnd None => Throw "Error: Failed to convert blob to base64"
  | ReadError error => Throw error
  end.

(** The line feed. *)
Definition newline : ascii := Ascii.ascii_of_nat 10.

(** [counsel.transcription.split('\n')[0]], the preview of a collapsed
    entry of the log.  Only a string has a [split] method: for any other
    value the call throws a TypeError. *)
Definition preview (counsel : Counsel.t) : Completion string :=
  match Counsel.transcription counsel with
  | JStr text => Normal (hd EmptyString (split newline text))
  | _ => Throw "TypeError: counsel.transcription.split is not a function"
  end.

(** ** Everything that happens to [App] *)

(** The calls that reach the state of [App]: the controls of the log
    tab, and the three handlers that [App] hands to the other two views. *)
Inductive AppEvent : Type :=
| OnLogTab (e : LogView.Event)
| AddStudent (now : Z) (student : FormData.t)
| UpdateStudent (studentToUpdate : Student.t)
| SaveEducationData (studentId counselId : string) (image : option string) (notes : string).

Section AppRuns.
Context {collation : Collation}.

Definition appStep (e : AppEvent) (app : App.t) : App.t :=
  match e with
  | OnLogTab e => LogView.step e app
  | AddStudent now student => handleAddStudent now student app
  | UpdateStudent studentToUpdate => handleUpdateStudent studentToUpdate app
  | SaveEducationData studentId counselId image notes =>
      handleSaveEducationData studentId counselId image notes app
  end.

(** The state of [App] after a sequence of calls since mount. *)
Definition appRun (events : list AppEvent) : App.t :=
  fold_left (fun app e => appStep e app) events App.initial.
End AppRuns.

(** ** Runs without overlap *)

(** A click together with what it waits for, nothing happening in
    between; or a single call that waits for nothing. *)
Inductive Turn : Type :=
| Starts (answer : DeviceAnswer)   (* a click on start and the device's answer *)
| Stops (data : Blob.t)            (* a click on stop and the recorder's events *)
| Transcribes (env : RoundTrip.t)  (* a click on transcribe and the reply *)
| Selects (studentId : string)
| GoesBack
| Adds (now : Z) (student : FormData.t)     (* handlers called from the other views *)
| Updates (studentToUpdate : Student.t)
| Saves (studentId counselId : string) (image : option string) (notes : string).

Definition turnEvents (turn : Turn) : list AppEvent :=
  match turn with
  | Starts answer => [OnLogTab LogView.StartClick; OnLogTab (LogView.DeviceAnswers answer)]
  | Stops data => [OnLogTab LogView.StopClick; OnLogTab (LogView.RecorderStopped data)]
  | Transcribes env => [OnLogTab LogView.TranscribeClick; OnLogTab (LogView.ReplyArrives env)]
  | Selects studentId => [OnLogTab (LogView.SelectStudent studentId)]
  | GoesBack => [OnLogTab LogView.BackToStudentList]
  | Adds now student => [AddStudent now student]
  | Updates studentToUpdate => [UpdateStudent studentToUpdate]
  | Saves studentId counselId image notes =>
      [SaveEducationData studentId counselId image notes]
  end.

(** The recorder could be built and started whenever the stream was
    granted. *)
Definition recorderWorks (turn : Turn) : bool :=
  match turn with
  | Starts (ConstructorThrows _) | Starts (StartThrows _) => false
  | _ => true
  end.

(** The events of a run made of turns. *)
Definition turnsEvents (turns : list Turn) : list AppEvent :=
  flat_map turnEvents turns.

(** The form of [EducationView], when not modified, shows what is
    stored for the focused counsel. *)
Definition formSynced (st : EducationView.t * App.t) : Prop :=
  let (v, app) := st in
  forall c, EducationView.selectedCounsel (App.students app) v = Some c ->
            EducationView.isModified v = false ->
            EducationView.image v = truthyString (Counsel.reflectionImage c) /\
            EducationView.notes v = orEmpty (Counsel.educationalNotes c).

(** ** What [EducationView] renders *)

Module EducationPanes.
(** The blocks the view can put on screen. *)
Inductive Pane : Type :=
| StudentList
| Placeholder
| CounselList (s : Student.t)
| EducationForm (s : Student.t) (c : Counsel.t).

(** [renderCounselList()]: [null] without a selected student. *)
Definition renderCounselList (students : list Student.t) (v : EducationView.t) : option Pane :=
  option_map CounselList (EducationView.selectedStudent students v).

(** [renderEducationForm()]: [null] unless student and counsel resolve. *)
Definition renderEducationForm (students : list Student.t) (v : EducationView.t) : option Pane :=
  match EducationView.selectedStudent students v, EducationView.selectedCounsel students v with
  | Some s, Some c => Some (EducationForm s c)
  | _, _ => None
  end.

Definition shown (content : option Pane) : list Pane :=
  match content with
  | Some pane => [pane]
  | None => []
  end.

(** The [return] of the component: one block chosen by the two ids
    when [isMobile], otherwise the student list and what the
    conjunctions [selectedStudent && ...] let through. *)
Definition render (isMobile : bool) (students : list Student.t) (v : EducationView.t)
  : list Pane :=
  if isMobile then
    shown (if isFalsy (EducationView.selectedStudentId v) then Some StudentList
           else if isFalsy (EducationView.selectedCounselId v)
                then renderCounselList students v
                else renderEducationForm students v)
  else
    StudentList
      :: match EducationView.selectedStudent students v with
         | None => [Placeholder]
         | Some _ =>
             if isFalsy (EducationView.selectedCounselId v)
             then shown (renderCounselList students v)
             else shown (renderEducationForm students v)
         end.

Definition showsStudentList (panes : list Pane) : bool :=
  existsb (fun pane => if pane is StudentList then true else false) panes.

Definition showsCounselList (panes : list Pane) : option Student.t :=
  hd_error (flat_map (fun pane => if pane is CounselList s then [s] else []) panes).

Definition showsForm (panes : list Pane) : bool :=
  existsb (fun pane => if pane is EducationForm _ _ then true else false) panes.

(** The control behind an event is on screen (and enabled): list
    items for the students and counsels listed, the two back buttons on
    mobile only, the inputs and the save button with the form, the save
    button only once the form is modified. *)
Definition offered (isMobile : bool) (e : EducationView.Event)
           (st : EducationView.t * App.t) : bool :=
  let (v, app) := st in
  let panes := render isMobile (App.students app) v in
  match e with
  | EducationView.StudentClick (Some studentId) =>
      showsStudentList panes
      && existsb (fun s => String.eqb (Student.id s) studentId) (App.students app)
  | EducationView.StudentClick None =>
      isMobile && (if showsCounselList panes is Some _ then true else false)
  | EducationView.CounselClick counselId =>
      match showsCounselList panes with
      | Some s => existsb (fun c => String.eqb (Counsel.id c) counselId) (Student.counsels s)
      | None => false
      end
  | EducationView.BackToCounselList => isMobile && showsForm panes
  | EducationView.ImageChange _ | EducationView.NotesChange _ => showsForm panes
  | EducationView.Save => showsForm panes && EducationView.isModified v
  end.

(** One event under the viewport mode of the moment. *)
Definition step (occurrence : bool * EducationView.Event)
           (st : EducationView.t * App.t) : EducationView.t * App.t :=
  let (isMobile, e) := occurrence in
  if offered isMobile e st then EducationView.step e st else st.

Definition run (occurrences : list (bool * EducationView.Event))
           (st : EducationView.t * App.t) : EducationView.t * App.t :=
  fold_left (fun st o => step o st) occurrences st.

(** Each id that is set resolves in the roster. *)
Definition focusResolves (st : EducationView.t * App.t) : Prop :=
  let (v, app) := st in
  (EducationView.selectedStudentId v = None
   \/ exists s, EducationView.selectedStudent (App.students app) v = Some s) /\
  (EducationView.selectedCounselId v = None
   \/ exists c, EducationView.selectedCounsel (App.students app) v = Some c).
End EducationPanes.

(** * Properties *)

(** ** Sorting *)

Section SortFacts.
Variable A : Type.
Variable compareFn : A -> A -> Z.
Hypothesis compareFn_total : forall a b, 0 < compareFn a b -> compareFn b a <= 0.

Lemma insertSorted_Permutation (x : A) (l : list A) :
  Permutation (insertSorted compareFn x l) (x :: l).
Proof.
  induction l as [|y rest IH]; simpl.
  - apply Permutation_refl.
  - destruct (compareFn x y <=? 0).
    + apply Permutation_refl.
    + apply perm_trans with (y :: x :: rest).
      * now apply perm_skip.
      * apply perm_swap.
Qed.

Lemma sort_Permutation (l : list A) : Permutation (sort compareFn l) l.
Proof.
  induction l as [|x rest IH]; simpl.
  - apply perm_nil.
  - apply perm_trans with (x :: sort compareFn rest).
    + apply insertSorted_Permutation.
    + now apply perm_skip.
Qed.

Lemma insertSorted_HdRel (a x : A) (l : list A) :
  precedes compareFn a x -> HdRel (precedes compareFn) a l ->
  HdRel (precedes compareFn) a (insertSorted compareFn x l).
Proof.
  intros Hax Hal. destruct l as [|y rest]; simpl.
  - now constructor.
  - destruct (compareFn x y <=? 0); constructor; trivial.
    now inversion Hal.
Qed.

Lemma insertSorted_Sorted (x : A) (l : list A) :
  Sorted (precedes compareFn) l ->
  Sorted (precedes compareFn) (insertSorted compareFn x l).
Proof.
  induction 1 as [|y rest Hs IH Hhd]; simpl.
  - repeat constructor.
  - destruct (compareFn x y <=? 0) eqn:E.
    + apply Z.leb_le in E. repeat constructor; trivial.
    + apply Z.leb_gt in E. constructor; trivial.
      apply insertSorted_HdRel; trivial.
      now apply compareFn_total.
Qed.

Lemma sort_Sorted (l : list A) : Sorted (precedes compareFn) (sort compareFn l).
Proof.
  induction l as [|x rest IH]; simpl.
  - constructor.
  - now apply insertSorted_Sorted.
Qed.

(** A stable sort leaves a sorted list as it is. *)
Lemma sort_of_Sorted (l : list A) :
  Sorted (precedes compareFn) l -> sort compareFn l = l.
Proof.
  induction 1 as [|x rest Hs IH Hhd]; simpl; trivial.
  rewrite IH. destruct Hhd as [|y rest' Hxy]; simpl; trivial.
  unfold precedes in Hxy. apply Z.leb_le in Hxy. now rewrite Hxy.
Qed.
End SortFacts.

(** ** Comparison by character code is a collation *)

Lemma string_compare_trans (a b c : string) :
  String.compare a b <> Gt -> String.compare b c <> Gt -> String.compare a c <> Gt.
Proof.
  revert b c.
  induction a as [|ca a IH]; intros [|cb b] [|cc c]; simpl; try congruence.
  unfold Ascii.compare.
  destruct (N.compare_spec (N_of_ascii ca) (N_of_ascii cb));
    destruct (N.compare_spec (N_of_ascii cb) (N_of_ascii cc));
    destruct (N.compare_spec (N_of_ascii ca) (N_of_ascii cc));
    try congruence; try lia; eauto.
Qed.

Lemma codeUnitCompare_le (a b : string) :
  codeUnitCompare a b <= 0 <-> String.compare a b <> Gt.
Proof.
  unfold codeUnitCompare. destruct (String.compare a b); split; intros; try lia; congruence.
Qed.

Lemma codeUnitCompare_total (a b : string) :
  0 < codeUnitCompare a b -> codeUnitCompare b a <= 0.
Proof.
  unfold codeUnitCompare. rewrite (String.compare_antisym b a).
  destruct (String.compare a b); simpl; lia.
Qed.

Lemma codeUnitCompare_trans (a b c : string) :
  codeUnitCompare a b <= 0 -> codeUnitCompare b c <= 0 -> codeUnitCompare a c <= 0.
Proof.
  rewrite !codeUnitCompare_le. apply string_compare_trans.
Qed.

#[local] Instance codeUnitCollation : Collation :=
  {| localeCompare := codeUnitCompare;
     localeCompare_total := codeUnitCompare_total;
     localeCompare_trans := codeUnitCompare_trans |}.

(** ** Scenarios *)

(** Registering class 3 number 12 and then class 1 number 5 lists the
    second student first. *)
Example register_scenario :
  map Student.name
      (rosterAfter (collation := codeUnitCollation)
         [Register 1700000000000 (FormData.mk "3" "12" "Kim" "" "");
          Register 1700000000001 (FormData.mk "1" "5" "Lee" "" "")])
  = ["Lee"; "Kim"].
Proof. reflexivity. Qed.

(** A run answered with both fields gives the student one counsel,
    without annotations. *)
Example successful_run_scenario :
  let blob := Blob.mk [Byte.x52; Byte.x49] "audio/webm" in
  let kim := Student.mk "7" "3" "12" "Kim" "" "" [] in
  let app := App.setAudioBlob (Some blob)
               (App.setSelectedStudentId (Some "7")
                  (App.setStudents (fun _ => [kim]) App.initial)) in
  let env := RoundTrip.mk (Normal "Ukk=")
                          (Parsed (JObj [("transcription", JStr "t1"); ("feedback", JStr "f1")]))
                          1700000000000 "d1" in
  map Student.counsels (App.students (handleTranscribeAndFeedback env app))
  = [[Counsel.mk "1700000000000" "d1" (Some blob) (JStr "t1") (JStr "f1") None None]].
Proof. reflexivity. Qed.

(** A recording started and stopped through the controls leaves the
    captured payload in [audioBlob] and no capture live. *)
Example record_scenario :
  let chunk := Blob.mk [Byte.x52; Byte.x49] "audio/webm" in
  let kim := Student.mk "7" "3" "12" "Kim" "" "" [] in
  let app := LogView.run [LogView.SelectStudent "7";
                          LogView.StartClick; LogView.DeviceAnswers Granted;
                          LogView.StopClick; LogView.RecorderStopped chunk]
                         (App.setStudents (fun _ => [kim]) App.initial) in
  App.audioBlob app = Some chunk /\ App.isRecording app = false /\
  App.liveCaptures app = 0%nat.
Proof. repeat split. Qed.

(** ** The roster stays sorted *)

Section RosterFacts.
Context {collation : Collation}.

Lemma compareStudents_total (a b : Student.t) :
  0 < compareStudents a b -> compareStudents b a <= 0.
Proof. apply localeCompare_total. Qed.

Lemma keyPrecedes_trans : Relations_1.Transitive keyPrecedes.
Proof.
  intros a b c. unfold keyPrecedes, precedes, compareStudents.
  apply localeCompare_trans.
Qed.

Lemma addStudent_Sorted (now : Z) (student : FormData.t) (prev : list Student.t) :
  Sorted keyPrecedes (addStudent now student prev).
Proof. apply sort_Sorted, compareStudents_total. Qed.

Lemma updateStudent_Sorted (studentToUpdate : Student.t) (prev : list Student.t) :
  Sorted keyPrecedes (updateStudent studentToUpdate prev).
Proof. apply sort_Sorted, compareStudents_total. Qed.

(** Rewriting students without touching their class and number keeps
    the order. *)
Lemma map_keeps_Sorted (f : Student.t -> Student.t) (l : list Student.t) :
  (forall s, Student.sortKey (f s) = Student.sortKey s) ->
  Sorted keyPrecedes l -> Sorted keyPrecedes (map f l).
Proof.
  intros Hkey. induction 1 as [|x rest Hs IH Hhd]; simpl; constructor; trivial.
  destruct Hhd as [|y rest' Hxy]; simpl; constructor.
  unfold keyPrecedes, precedes, compareStudents in *. now rewrite !Hkey.
Qed.

Lemma prependCounsel_Sorted (studentId : string) (newCounsel : Counsel.t)
      (prev : list Student.t) :
  Sorted keyPrecedes prev -> Sorted keyPrecedes (prependCounsel studentId newCounsel prev).
Proof.
  apply map_keeps_Sorted. intros s. now destruct (String.eqb _ _).
Qed.

Lemma saveEducationData_Sorted (studentId counselId : string)
      (image : option string) (notes : string) (prev : list Student.t) :
  Sorted keyPrecedes prev ->
  Sorted keyPrecedes (saveEducationData studentId counselId image notes prev).
Proof.
  apply map_keeps_Sorted. intros s. now destruct (negb _).
Qed.

Lemma applyOp_Sorted (op : RosterOp) (prev : list Student.t) :
  Sorted keyPrecedes prev -> Sorted keyPrecedes (applyOp op prev).
Proof.
  destruct op; simpl; intros H.
  - apply addStudent_Sorted.
  - apply updateStudent_Sorted.
  - now apply prependCounsel_Sorted.
  - now apply saveEducationData_Sorted.
Qed.

Lemma fold_applyOp_Sorted (ops : list RosterOp) (prev : list Student.t) :
  Sorted keyPrecedes prev ->
  Sorted keyPrecedes (fold_left (fun prev op => applyOp op prev) ops prev).
Proof.
  revert prev. induction ops as [|op ops IH]; simpl; intros prev H; trivial.
  now apply IH, applyOp_Sorted.
Qed.

Lemma rosterAfter_Sorted (ops : list RosterOp) : Sorted keyPrecedes (rosterAfter ops).
Proof. apply fold_applyOp_Sorted. constructor. Qed.

(** C4 (as amended).  After every sequence of roster rewrites, hence
    after every register and every update, the roster is sorted by the
    text [class-number] of its students under the collation: every
    student's key precedes or equals the key of every student after it. *)
Theorem roster_sorted_by_key (ops : list RosterOp) :
  StronglySorted keyPrecedes (rosterAfter ops).
Proof.
  apply Sorted_StronglySorted.
  - exact keyPrecedes_trans.
  - apply rosterAfter_Sorted.
Qed.

(** ** Updating a student that is not there *)

Lemma replace_absent (u : Student.t) (l : list Student.t) :
  findStudent (Student.id u) l = None ->
  map (fun s => if String.eqb (Student.id s) (Student.id u) then u else s) l = l.
Proof.
  unfold findStudent. induction l as [|x rest IH]; simpl; trivial.
  destruct (String.eqb (Student.id x) (Student.id u)); [discriminate|].
  intros H. now rewrite IH.
Qed.

Lemma updateStudent_absent (u : Student.t) (l : list Student.t) :
  Sorted keyPrecedes l -> findStudent (Student.id u) l = None ->
  updateStudent u l = l.
Proof.
  intros Hs Hnone. unfold updateStudent.
  rewrite replace_absent by trivial. now apply sort_of_Sorted.
Qed.

(** C6.  In every state of the roster (any sequence of rewrites of the
    empty roster), [handleUpdateStudent] with a student whose id matches no
    student leaves [students] as it was, record for record. *)
Theorem update_unknown_id_keeps_roster
        (ops : list RosterOp) (studentToUpdate : Student.t) (app : App.t) :
  App.students app = rosterAfter ops ->
  findStudent (Student.id studentToUpdate) (App.students app) = None ->
  App.students (handleUpdateStudent studentToUpdate app) = App.students app.
Proof.
  intros Hreach Hnone. simpl.
  apply updateStudent_absent; trivial.
  rewrite Hreach. apply rosterAfter_Sorted.
Qed.
End RosterFacts.

(** C4 as stated does not hold: with strings compared by character
    code, registering class [1] number [2] and then class [1-1] number
    [0] leaves the roster as [[1-1/0; 1/2]], because the key [1-1-0] sorts
    before the key [1-2]; by the pair, class [1] comes before class [1-1]. *)
Lemma roster_not_sorted_by_pair :
  map Student.sortKey
      (rosterAfter (collation := codeUnitCollation)
         [Register 1 (FormData.mk "1" "2" "Kim" "" "");
          Register 2 (FormData.mk "1-1" "0" "Lee" "" "")])
  = ["1-1-0"; "1-2"] /\
  ~ Sorted (fun a b => pairPrecedes (collation := codeUnitCollation) a b = true)
      (rosterAfter (collation := codeUnitCollation)
         [Register 1 (FormData.mk "1" "2" "Kim" "" "");
          Register 2 (FormData.mk "1-1" "0" "Lee" "" "")]).
Proof.
  split; [reflexivity|].
  intros H. vm_compute in H.
  inversion H as [|a l Hs Hhd]; subst.
  inversion Hhd as [|b l' Hab]; subst.
  discriminate Hab.
Qed.

Lemma update_unknown_id_keeps_roster_witness :
  let app := App.setStudents
               (fun _ => rosterAfter (collation := codeUnitCollation)
                           [Register 1 (FormData.mk "3" "12" "Kim" "" "");
                            Register 2 (FormData.mk "1" "5" "Lee" "" "")])
               App.initial in
  let ghost := Student.mk "99" "0" "1" "Ghost" "" "" [] in
  App.students (handleUpdateStudent (collation := codeUnitCollation) ghost app)
  = App.students app.
Proof.
  intros app ghost.
  apply (update_unknown_id_keeps_roster (collation := codeUnitCollation)
           [Register 1 (FormData.mk "3" "12" "Kim" "" "");
            Register 2 (FormData.mk "1" "5" "Lee" "" "")] ghost app);
    reflexivity.
Defined.

(** ** Identifiers *)

Lemma to_int_not_nil (n : Z) :
  Z.to_int n <> Decimal.Pos Decimal.Nil /\ Z.to_int n <> Decimal.Neg Decimal.Nil.
Proof.
  destruct n as [|p|p]; simpl; split; try discriminate;
    intros [= H]; now apply (DecimalPos.Unsigned.to_uint_nonnil p).
Qed.

(** An identifier reads back as the clock reading it was made from. *)
Lemma parseInt_toString (n : Z) : parseInt (toString n) = Some n.
Proof.
  unfold parseInt, toString.
  destruct (to_int_not_nil n) as [Hpos Hneg].
  rewrite NilZero.isi by assumption. simpl.
  now rewrite DecimalZ.of_to.
Qed.

Lemma toString_inj (n m : Z) : toString n = toString m -> n = m.
Proof.
  intros H. apply (f_equal parseInt) in H.
  rewrite !parseInt_toString in H. congruence.
Qed.

Lemma Issued_toString (now : Z) (id : string) : Issued now id -> id = toString now.
Proof.
  destruct 1 as [now student | students sid blob env c Hbuild]; trivial.
  unfold buildCounsel in Hbuild.
  destruct (findStudent sid students); [|discriminate].
  destruct (RoundTrip.base64Audio env); [|discriminate].
  simpl in Hbuild.
  destruct (match RoundTrip.reply env with
            | Parsed v => Normal v
            | Rejected e | Unparseable e => Throw e
            end) as [v|]; [|discriminate].
  simpl in Hbuild.
  destruct (readProp v "transcription"); [|discriminate]. simpl in Hbuild.
  destruct (readProp v "feedback"); [|discriminate]. simpl in Hbuild.
  now injection Hbuild as <-.
Qed.

(** C3 (as amended).  An identifier is the decimal text of the clock
    reading at which the student or the counsel was created, and denotes
    that reading as a number.  Hence two identifiers are equal exactly when
    they were issued at the same reading, and of two identifiers issued at
    different readings the later one denotes the strictly greater number. *)
Theorem identifiers_follow_the_clock (earlier later : Z) (id1 id2 : string) :
  Issued earlier id1 -> Issued later id2 ->
  parseInt id1 = Some earlier /\
  parseInt id2 = Some later /\
  (id1 = id2 <-> earlier = later) /\
  (earlier < later ->
   id1 <> id2 /\
   exists n1 n2, parseInt id1 = Some n1 /\ parseInt id2 = Some n2 /\ n1 < n2).
Proof.
  intros H1 H2.
  apply Issued_toString in H1, H2. subst id1 id2.
  rewrite !parseInt_toString.
  split; [reflexivity|]. split; [reflexivity|]. split.
  - split; [apply toString_inj | now intros ->].
  - intros Hlt. split.
    + intros Heq. apply toString_inj in Heq. lia.
    + now exists earlier, later.
Qed.

Lemma identifiers_follow_the_clock_witness :
  Student.id (newStudent 1700000000000 (FormData.mk "3" "12" "Kim" "" ""))
  <> Student.id (newStudent 1700000000001 (FormData.mk "1" "5" "Lee" "" "")) /\
  exists n1 n2,
    parseInt (Student.id (newStudent 1700000000000 (FormData.mk "3" "12" "Kim" "" ""))) = Some n1 /\
    parseInt (Student.id (newStudent 1700000000001 (FormData.mk "1" "5" "Lee" "" ""))) = Some n2 /\
    n1 < n2.
Proof.
  apply (identifiers_follow_the_clock (earlier := 1700000000000) (later := 1700000000001)).
  - apply IssuedStudent.
  - apply IssuedStudent.
  - reflexivity.
Defined.

(** C3 as stated does not hold: two students registered at the same
    clock reading are given the same identifier. *)
Lemma same_instant_same_identifier :
  let kim := newStudent 1700000000000 (FormData.mk "3" "12" "Kim" "" "") in
  let lee := newStudent 1700000000000 (FormData.mk "1" "5" "Lee" "" "") in
  kim <> lee /\
  Issued 1700000000000 (Student.id kim) /\
  Issued 1700000000000 (Student.id lee) /\
  Student.id kim = Student.id lee /\
  map Student.id
      (App.students
         (handleAddStudent (collation := codeUnitCollation)
            1700000000000 (FormData.mk "1" "5" "Lee" "" "")
            (handleAddStudent (collation := codeUnitCollation)
               1700000000000 (FormData.mk "3" "12" "Kim" "" "")
               App.initial)))
  = ["1700000000000"; "1700000000000"].
Proof.
  intros kim lee. split; [discriminate|].
  split; [apply IssuedStudent|].
  split; [apply IssuedStudent|].
  split; reflexivity.
Qed.

(** ** Prepending a counsel *)

Lemma prependCounsel_absent (studentId : string) (newCounsel : Counsel.t)
      (prev : list Student.t) :
  findStudent studentId prev = None -> prependCounsel studentId newCounsel prev = prev.
Proof.
  unfold findStudent, prependCounsel. induction prev as [|x rest IH]; simpl; trivial.
  destruct (String.eqb (Student.id x) studentId); [discriminate|].
  intros H. now rewrite IH.
Qed.

(** C5.  [prependCounsel] rewrites the roster position by position: a
    student with the given id keeps every field and gets the new counsel
    at index 0 of [counsels], with the counsels it had moved up by one in
    their order; any other student is untouched.  When the id resolves to
    no student the roster is returned as it was. *)
Theorem prepend_puts_counsel_first
        (studentId : string) (newCounsel : Counsel.t) (prev : list Student.t) :
  (findStudent studentId prev = None ->
   prependCounsel studentId newCounsel prev = prev) /\
  List.length (prependCounsel studentId newCounsel prev) = List.length prev /\
  forall (i : nat) (s : Student.t),
    nth_error prev i = Some s ->
    exists s',
      nth_error (prependCounsel studentId newCounsel prev) i = Some s' /\
      if String.eqb (Student.id s) studentId
      then s' = Student.withCounsels s (Student.counsels s') /\
           nth_error (Student.counsels s') 0 = Some newCounsel /\
           (forall j, nth_error (Student.counsels s') (S j)
                      = nth_error (Student.counsels s) j)
      else s' = s.
Proof.
  split; [apply prependCounsel_absent|].
  split; [apply length_map|].
  intros i s Hi. unfold prependCounsel.
  rewrite nth_error_map, Hi. simpl.
  eexists; split; [reflexivity|].
  destruct (String.eqb (Student.id s) studentId); auto.
Qed.

Lemma prepend_puts_counsel_first_witness :
  let old := Counsel.mk "11" "d1" None (JStr "t0") (JStr "f0") None None in
  let new := Counsel.mk "12" "d2" None (JStr "t1") (JStr "f1") None None in
  let kim := Student.mk "7" "3" "12" "Kim" "" "" [old] in
  prependCounsel "8" new [kim] = [kim] /\
  map Student.counsels (prependCounsel "7" new [kim]) = [[new; old]].
Proof.
  intros old new kim. split.
  - apply (prepend_puts_counsel_first "8" new [kim]). reflexivity.
  - reflexivity.
Defined.

(** ** Editing a student *)

Lemma findStudent_id (id : string) (l : list Student.t) (s : Student.t) :
  findStudent id l = Some s -> In s l /\ Student.id s = id.
Proof.
  intros H. apply find_some in H. destruct H as [Hin Heq].
  split; trivial. now apply String.eqb_eq.
Qed.

Section EditFacts.
Context {collation : Collation}.

Lemma updateStudent_In (u s : Student.t) (prev : list Student.t) :
  In s (updateStudent u prev) <->
  In s (map (fun x => if String.eqb (Student.id x) (Student.id u) then u else x) prev).
Proof.
  unfold updateStudent. split; intros H.
  - eapply Permutation_in; [apply sort_Permutation|exact H].
  - eapply Permutation_in; [apply Permutation_sym, sort_Permutation|exact H].
Qed.

Lemma updateStudent_ids (u : Student.t) (prev : list Student.t) :
  Permutation (map Student.id (updateStudent u prev)) (map Student.id prev).
Proof.
  unfold updateStudent.
  eapply perm_trans; [apply Permutation_map, sort_Permutation|].
  rewrite map_map. erewrite map_ext; [apply Permutation_refl|].
  intros x. simpl. destruct (String.eqb (Student.id x) (Student.id u)) eqn:E; trivial.
  symmetry. now apply String.eqb_eq.
Qed.

(** C9.  Submitting the register form while a student is being edited
    whose id no other student of the roster has: the roster afterwards
    is, up to the order the sort gives it, the roster before with the five
    form fields written into the edited student and every other student as
    it was; so every student keeps its id and its [counsels]. *)
Theorem edit_keeps_id_and_counsels
        (now : Z) (v : RegisterView.t) (app : App.t) (editing : Student.t) :
  RegisterView.editingStudent (App.students app) v = Some editing ->
  RegisterView.missingRequired (RegisterView.formData v) = false ->
  (forall x, In x (App.students app) ->
             Student.id x = Student.id editing -> x = editing) ->
  let after := App.students (snd (RegisterView.handleSubmit now (v, app))) in
  Permutation after
              (map (fun s => if String.eqb (Student.id s) (Student.id editing)
                             then Student.withForm s (RegisterView.formData v)
                             else s)
                   (App.students app)) /\
  Permutation (map (fun s => (Student.id s, Student.counsels s)) after)
              (map (fun s => (Student.id s, Student.counsels s)) (App.students app)) /\
  In (Student.withForm editing (RegisterView.formData v)) after.
Proof.
  intros Hedit Hvalid Hunique. unfold RegisterView.handleSubmit.
  rewrite Hvalid, Hedit. simpl.
  set (u := Student.withForm editing (RegisterView.formData v)).
  set (edited := fun s => if String.eqb (Student.id s) (Student.id editing)
                          then Student.withForm s (RegisterView.formData v) else s).
  assert (Hfound : In editing (App.students app)).
  { unfold RegisterView.editingStudent, resolveStudent in Hedit.
    destruct (RegisterView.editingStudentId v); [|discriminate].
    now apply findStudent_id in Hedit. }
  assert (Hafter : Permutation (updateStudent u (App.students app))
                               (map edited (App.students app))).
  { unfold updateStudent.
    eapply perm_trans; [apply sort_Permutation|].
    erewrite map_ext_in; [apply Permutation_refl|].
    intros x Hin. unfold edited. change (Student.id u) with (Student.id editing).
    destruct (String.eqb (Student.id x) (Student.id editing)) eqn:E; trivial.
    apply String.eqb_eq in E. now rewrite (Hunique x Hin E). }
  split; [exact Hafter|]. split.
  - eapply perm_trans; [apply Permutation_map, Hafter|].
    rewrite map_map. erewrite map_ext; [apply Permutation_refl|].
    intros x. unfold edited.
    now destruct (String.eqb (Student.id x) (Student.id editing)).
  - apply updateStudent_In, in_map_iff. exists editing. split; trivial.
    change (Student.id u) with (Student.id editing). now rewrite String.eqb_refl.
Qed.
End EditFacts.

Lemma edit_keeps_id_and_counsels_witness :
  let session := Counsel.mk "11" "d1" None (JStr "t1") (JStr "f1") None None in
  let kim := Student.mk "7" "3" "12" "Kim" "" "" [session] in
  let lee := Student.mk "8" "1" "5" "Lee" "" "" [] in
  let app := App.setStudents (fun _ => [lee; kim]) App.initial in
  let v := RegisterView.mk (FormData.mk "0" "1" "Kim" "INTJ" "quiet") (Some "7") in
  let after := App.students
                 (snd (RegisterView.handleSubmit (collation := codeUnitCollation)
                         5 (v, app))) in
  Permutation (map (fun s => (Student.id s, Student.counsels s)) after)
              [("8", []); ("7", [session])] /\
  In (Student.mk "7" "0" "1" "Kim" "INTJ" "quiet" [session]) after.
Proof.
  intros session kim lee app v.
  assert (Hunique : forall x, In x (App.students app) ->
                              Student.id x = Student.id kim -> x = kim).
  { intros x [<-|[<-|[]]]; [discriminate|reflexivity]. }
  exact (proj2 (edit_keeps_id_and_counsels (collation := codeUnitCollation)
                  5 v app (editing := kim) eq_refl eq_refl Hunique)).
Defined.

(** Two students registered at one clock reading share an id.  Selecting
    that id for editing finds the first of them, and submitting the form
    as it was filled replaces both records by that one: the other student
    and its session are gone. *)
Lemma edit_with_shared_id_loses_counsels :
  let session := Counsel.mk "11" "d1" None (JStr "t1") (JStr "f1") None None in
  let kim := Student.mk "1" "3" "12" "Kim" "" "" [session] in
  let lee := Student.mk "1" "1" "5" "Lee" "" "" [] in
  let students :=
    rosterAfter (collation := codeUnitCollation)
                [Register 1 (FormData.mk "3" "12" "Kim" "" "");
                 PrependSession "1" session;
                 Register 1 (FormData.mk "1" "5" "Lee" "" "")] in
  let app := App.setStudents (fun _ => students) App.initial in
  let v := RegisterView.handleStudentSelect students "1" RegisterView.initial in
  let after := App.students
                 (snd (RegisterView.handleSubmit (collation := codeUnitCollation)
                         5 (v, app))) in
  students = [lee; kim] /\
  RegisterView.editingStudent students v = Some lee /\
  RegisterView.missingRequired (RegisterView.formData v) = false /\
  after = [lee; lee] /\
  map Student.counsels after = [[]; []].
Proof. vm_compute. repeat split. Qed.

(** ** Saving annotations *)


Lemma find_map_same_test (A : Type) (p : A -> bool) (f : A -> A) (l : list A) :
  (forall x, p (f x) = p x) -> find p (map f l) = option_map f (find p l).
Proof.
  intros Hp. induction l as [|x rest IH]; simpl; trivial.
  rewrite Hp. now destruct (p x).
Qed.


(** The counsel a focus resolves to, once that very focus was saved. *)
Lemma resolveCounsel_saved (students : list Student.t)
      (studentId counselId : string) (image : option string) (notes : string)
      (c : Counsel.t) :
  resolveCounsel students (Some studentId) (Some counselId) = Some c ->
  resolveCounsel (saveEducationData studentId counselId image notes students)
                 (Some studentId) (Some counselId)
  = Some (annotate image notes c).
Proof.
  unfold resolveCounsel, resolveStudent, findStudent, saveEducationData.
  rewrite find_map_same_test.
  2:{ intros x. now destruct (negb (String.eqb (Student.id x) studentId)). }
  destruct (find _ students) as [s|] eqn:Hs; simpl; [|discriminate].
  apply find_some in Hs. destruct Hs as [_ Hs]. rewrite Hs. simpl.
  unfold findCounsel. rewrite find_map_same_test.
  2:{ intros x. now destruct (negb (String.eqb (Counsel.id x) counselId)). }
  intros Hc. rewrite Hc. simpl.
  apply find_some in Hc. destruct Hc as [_ Hc]. now rewrite Hc.
Qed.

Lemma sameCounsel_refl (x : option Counsel.t) : EducationView.sameCounsel x x = true.
Proof. destruct x; simpl; trivial. apply String.eqb_refl. Qed.

(** Typing notes or loading an image only changes the form. *)
Lemma step_NotesChange (value : string) (v : EducationView.t) (app : App.t) :
  EducationView.step (EducationView.NotesChange value) (v, app)
  = (EducationView.handleNotesChange value v, app).
Proof.
  unfold EducationView.step, EducationView.selectedCounsel. simpl.
  now rewrite sameCounsel_refl.
Qed.

Lemma step_ImageChange (file : option string) (v : EducationView.t) (app : App.t) :
  EducationView.step (EducationView.ImageChange file) (v, app)
  = (EducationView.handleImageChange file v, app).
Proof.
  unfold EducationView.step, EducationView.selectedCounsel.
  destruct file; simpl; now rewrite sameCounsel_refl.
Qed.






(** ** Runs of the transcription pipeline *)

Lemma malformed_throws (students : list Student.t) (selectedStudentId : string)
      (audioBlob : Blob.t) (env : RoundTrip.t) :
  malformed (RoundTrip.reply env) = true ->
  exists error, buildCounsel students selectedStudentId audioBlob env = Throw error.
Proof.
  intros H. unfold buildCounsel.
  destruct (findStudent selectedStudentId students); simpl; [|eauto].
  destruct (RoundTrip.base64Audio env); simpl; [|eauto].
  destruct (RoundTrip.reply env) as [e|e|v]; simpl; eauto.
  destruct v; try discriminate; simpl; eauto.
Qed.

(** X16.  When the reply of the AI service is malformed
    (the call fails, the text is not JSON, or it is JSON [null]), a run
    that got past its guard adds no counsel: the roster and the captured
    audio are what they were while the run was waiting, [isLoading] is
    reset, and the failure is reported through [alert].  With nothing else
    happening during the run, the roster is the one of the call and the
    audio is still the captured payload. *)
Theorem malformed_reply_creates_no_session
        (env : RoundTrip.t) (meanwhile : App.t -> App.t) (app : App.t)
        (audioBlob : Blob.t) (selectedStudentId : string) :
  App.audioBlob app = Some audioBlob ->
  truthyString (App.selectedStudentId app) = Some selectedStudentId ->
  malformed (RoundTrip.reply env) = true ->
  let waiting := meanwhile (App.setIsLoading true app) in
  let after := handleTranscribeAndFeedbackAsync env meanwhile app in
  (App.students after = App.students waiting /\
   App.audioBlob after = App.audioBlob waiting /\
   App.alerts after = App.alerts waiting ++ [analysisFailed] /\
   App.isLoading after = false) /\
  (App.students (handleTranscribeAndFeedback env app) = App.students app /\
   App.audioBlob (handleTranscribeAndFeedback env app) = Some audioBlob).
Proof.
  intros Hblob Hsid Hbad.
  destruct (malformed_throws (App.students app) selectedStudentId audioBlob env Hbad)
    as [error Hthrow].
  unfold handleTranscribeAndFeedback, handleTranscribeAndFeedbackAsync.
  rewrite Hblob, Hsid, Hthrow. simpl. auto.
Qed.

Lemma malformed_reply_creates_no_session_witness :
  let blob := Blob.mk [Byte.x52; Byte.x49] "audio/webm" in
  let kim := Student.mk "7" "3" "12" "Kim" "" "" [] in
  let app := App.setAudioBlob (Some blob)
               (App.setSelectedStudentId (Some "7")
                  (App.setStudents (fun _ => [kim]) App.initial)) in
  let env := RoundTrip.mk (Normal "Ukk=") (Unparseable "SyntaxError") 1700000000000 "d1" in
  App.students (handleTranscribeAndFeedback env app) = [kim] /\
  App.audioBlob (handleTranscribeAndFeedback env app) = Some blob.
Proof.
  intros blob kim app env.
  apply (malformed_reply_creates_no_session env (fun a => a) app
           (audioBlob := blob) (selectedStudentId := "7"));
    reflexivity.
Defined.

(** C1.  The code on a reply that parses but has no [feedback].
    Nothing checks the parsed object against the [Counsel] the handler
    builds from it, so the run goes down the success path: a counsel whose
    [feedback] is [undefined] is added to the student, the captured audio
    is dropped and nothing is reported. *)
Lemma reply_without_feedback_creates_session :
  let blob := Blob.mk [Byte.x52; Byte.x49] "audio/webm" in
  let kim := Student.mk "7" "3" "12" "Kim" "" "" [] in
  let app := App.setAudioBlob (Some blob)
               (App.setSelectedStudentId (Some "7")
                  (App.setStudents (fun _ => [kim]) App.initial)) in
  let env := RoundTrip.mk (Normal "Ukk=")
                          (Parsed (JObj [("transcription", JStr "t1")]))
                          1700000000000 "d1" in
  lacks "feedback" (RoundTrip.reply env) = true /\
  map Student.counsels (App.students (handleTranscribeAndFeedback env app))
  = [[Counsel.mk "1700000000000" "d1" (Some blob) (JStr "t1") JUndefined None None]] /\
  App.audioBlob (handleTranscribeAndFeedback env app) = None /\
  App.alerts (handleTranscribeAndFeedback env app) = [].
Proof. repeat split. Qed.

(** C10.  A run whose [try] block completes normally sets [audioBlob]
    to [null], so that invoking the handler again does nothing until there
    is a new recording; a run whose [try] block throws leaves [audioBlob]
    as it was while the run was waiting. *)
Theorem run_clears_audio_on_success_only
        (env : RoundTrip.t) (meanwhile : App.t -> App.t) (app : App.t)
        (outcome : Completion Counsel.t) :
  runOutcome env app = Some outcome ->
  let waiting := meanwhile (App.setIsLoading true app) in
  let after := handleTranscribeAndFeedbackAsync env meanwhile app in
  match outcome with
  | Normal _ =>
      App.audioBlob after = None /\
      forall env', handleTranscribeAndFeedback env' after = after
  | Throw _ => App.audioBlob after = App.audioBlob waiting
  end.
Proof.
  unfold runOutcome, handleTranscribeAndFeedback, handleTranscribeAndFeedbackAsync.
  destruct (App.audioBlob app) as [blob|]; [|discriminate].
  destruct (truthyString (App.selectedStudentId app)) as [sid|]; [|discriminate].
  intros [= ->]. destruct outcome; simpl; auto.
Qed.

Lemma run_clears_audio_on_success_only_witness :
  let blob := Blob.mk [Byte.x52; Byte.x49] "audio/webm" in
  let kim := Student.mk "7" "3" "12" "Kim" "" "" [] in
  let app := App.setAudioBlob (Some blob)
               (App.setSelectedStudentId (Some "7")
                  (App.setStudents (fun _ => [kim]) App.initial)) in
  let env := RoundTrip.mk (Normal "Ukk=")
                          (Parsed (JObj [("transcription", JStr "t1"); ("feedback", JStr "f1")]))
                          1700000000000 "d1" in
  App.audioBlob (handleTranscribeAndFeedback env app) = None /\
  forall env', handleTranscribeAndFeedback env' (handleTranscribeAndFeedback env app)
               = handleTranscribeAndFeedback env app.
Proof.
  intros blob kim app env.
  exact (run_clears_audio_on_success_only env (fun a => a) app
           (outcome := Normal (Counsel.mk "1700000000000" "d1" (Some blob)
                                          (JStr "t1") (JStr "f1") None None))
           eq_refl).
Defined.

(** ** Focus of the education view *)

Lemma onSelectedCounsel_focus (counsel : option Counsel.t) (v : EducationView.t) :
  EducationView.selectedStudentId (EducationView.onSelectedCounsel counsel v)
  = EducationView.selectedStudentId v /\
  EducationView.selectedCounselId (EducationView.onSelectedCounsel counsel v)
  = EducationView.selectedCounselId v.
Proof. now destruct counsel. Qed.

(** What an event makes of the two focus ids, whether or not the
    effect runs after it. *)
Lemma step_focus (e : EducationView.Event) (v : EducationView.t) (app : App.t) :
  let v' := fst (EducationView.step e (v, app)) in
  match e with
  | EducationView.StudentClick studentId =>
      EducationView.selectedStudentId v' = studentId /\
      EducationView.selectedCounselId v' = None
  | EducationView.CounselClick counselId =>
      EducationView.selectedStudentId v' = EducationView.selectedStudentId v /\
      EducationView.selectedCounselId v' = Some counselId
  | EducationView.BackToCounselList =>
      EducationView.selectedStudentId v' = EducationView.selectedStudentId v /\
      EducationView.selectedCounselId v' = None
  | _ =>
      EducationView.selectedStudentId v' = EducationView.selectedStudentId v /\
      EducationView.selectedCounselId v' = EducationView.selectedCounselId v
  end.
Proof.
  unfold EducationView.step.
  destruct e as [sid|cid| |file|value| ]; cbn zeta.
  1-5: match goal with
       | |- context [if ?b then _ else _] => destruct b
       end; simpl; rewrite ?(proj1 (onSelectedCounsel_focus _ _)),
                           ?(proj2 (onSelectedCounsel_focus _ _));
       try destruct file; simpl; auto.
  unfold EducationView.handleSave.
  destruct (truthyString (EducationView.selectedStudentId v));
    destruct (truthyString (EducationView.selectedCounselId v));
    destruct (EducationView.isModified v);
    match goal with
    | |- context [if ?b then _ else _] => destruct b
    end; simpl; rewrite ?(proj1 (onSelectedCounsel_focus _ _)),
                        ?(proj2 (onSelectedCounsel_focus _ _)); auto.
Qed.

(** C7.  In [EducationView], a click on a student (or the back button,
    which passes [null]) sets the selected student and clears the selected
    counsel; and whatever the event, if the selected student is not the one
    it was, no counsel is selected. *)
Theorem student_change_clears_counsel
        (e : EducationView.Event) (v : EducationView.t) (app : App.t) :
  let v' := fst (EducationView.step e (v, app)) in
  (forall studentId, e = EducationView.StudentClick studentId ->
                     EducationView.selectedStudentId v' = studentId /\
                     EducationView.selectedCounselId v' = None) /\
  (EducationView.selectedStudentId v' <> EducationView.selectedStudentId v ->
   EducationView.selectedCounselId v' = None).
Proof.
  pose proof (step_focus e v app) as H. cbn zeta in *.
  split.
  - intros studentId ->. exact H.
  - intros Hchanged. destruct e; destruct H as [Hs Hc]; trivial; now elim Hchanged.
Qed.

Lemma student_change_clears_counsel_witness :
  let s1 := Counsel.mk "11" "d1" None (JStr "t1") (JStr "f1") None None in
  let kim := Student.mk "7" "3" "12" "Kim" "" "" [s1] in
  let lee := Student.mk "8" "1" "5" "Lee" "" "" [] in
  let app := App.setStudents (fun _ => [lee; kim]) App.initial in
  let v := EducationView.mk (Some "7") (Some "11") None "" false in
  EducationView.selectedCounselId
    (fst (EducationView.step (EducationView.StudentClick (Some "8")) (v, app))) = None.
Proof.
  intros s1 kim lee app v.
  apply (proj2 (student_change_clears_counsel
                  (EducationView.StudentClick (Some "8")) v app)).
  discriminate.
Defined.

(** ** Registering keeps the others in place *)

Section InsertFacts.
Variable A : Type.
Variable compareFn : A -> A -> Z.
Hypothesis compareFn_trans : forall a b c,
    compareFn a b <= 0 -> compareFn b c <= 0 -> compareFn a c <= 0.

(** Sorting a sorted list with one more element at its end puts that
    element after everything that does not come after it, and moves
    nothing else. *)
Lemma sort_snoc (l : list A) (x : A) :
  StronglySorted (precedes compareFn) l ->
  exists before after,
    sort compareFn (l ++ [x]) = before ++ x :: after /\
    l = before ++ after /\
    Forall (fun y => compareFn y x <= 0) before /\
    Forall (fun y => 0 < compareFn y x) after.
Proof.
  induction 1 as [|p rest Hs IH Hall]; simpl.
  - exists [], []. repeat split; constructor.
  - destruct IH as (before & after & Hsort & Hrest & Hbefore & Hafter).
    rewrite Hsort. destruct before as [|b1 before']; simpl.
    + simpl in Hrest. subst after.
      destruct (compareFn p x <=? 0) eqn:E.
      * apply Z.leb_le in E. exists [p], rest. repeat split; trivial.
        now repeat constructor.
      * apply Z.leb_gt in E. exists [], (p :: rest). simpl.
        split.
        { f_equal. destruct Hall as [|a1 rest' Hpa _]; simpl; trivial.
          unfold precedes in Hpa. apply Z.leb_le in Hpa. now rewrite Hpa. }
        repeat split; trivial. now constructor.
    + subst rest. inversion Hall as [|? ? Hpb _]; subst.
      unfold precedes in Hpb. pose proof Hpb as Hpb'. apply Z.leb_le in Hpb'.
      rewrite Hpb'. exists (p :: b1 :: before'), after. simpl.
      repeat split; trivial. constructor; trivial.
      inversion Hbefore; subst. now apply compareFn_trans with b1.
Qed.
End InsertFacts.

Section RegisterFacts.
Context {collation : Collation}.

Lemma roster_sorted (ops : list RosterOp) :
  StronglySorted (precedes compareStudents) (rosterAfter ops).
Proof.
  apply Sorted_StronglySorted.
  - exact keyPrecedes_trans.
  - apply rosterAfter_Sorted.
Qed.

Lemma fold_applyOp_app (ops more : list RosterOp) :
  rosterAfter (ops ++ more)
  = fold_left (fun prev op => applyOp op prev) more (rosterAfter ops).
Proof. unfold rosterAfter. apply fold_left_app. Qed.

(** X1.  A registration puts the new student into the sorted roster
    without moving anyone: the roster after it is the roster before it
    with the new student inserted, behind every student whose key does not
    come after the new key (so behind students with an equal key) and in
    front of every student whose key comes after it. *)
Theorem register_inserts_in_place
        (ops : list RosterOp) (now : Z) (student : FormData.t) :
  exists before after,
    rosterAfter (ops ++ [Register now student])
    = before ++ newStudent now student :: after /\
    rosterAfter ops = before ++ after /\
    Forall (fun s => compareStudents s (newStudent now student) <= 0) before /\
    Forall (fun s => 0 < compareStudents s (newStudent now student)) after.
Proof.
  rewrite fold_applyOp_app. simpl. unfold addStudent.
  apply sort_snoc.
  - intros a b c. unfold compareStudents. apply localeCompare_trans.
  - apply roster_sorted.
Qed.
End RegisterFacts.

(** ** Nothing deletes or renames a student *)

Section IdentityFacts.
Context {collation : Collation}.

Lemma applyOp_ids (op : RosterOp) (prev : list Student.t) :
  Permutation (map Student.id (applyOp op prev))
              (map Student.id prev ++ registeredIds [op]).
Proof.
  destruct op as [now student|u|sid c|sid cid image notes]; simpl;
    rewrite ?app_nil_r.
  - unfold addStudent.
    eapply perm_trans; [apply Permutation_map, sort_Permutation|].
    rewrite map_app. apply Permutation_refl.
  - apply updateStudent_ids.
  - unfold prependCounsel. rewrite map_map.
    erewrite map_ext; [apply Permutation_refl|].
    intros s. now destruct (String.eqb _ _).
  - unfold saveEducationData. rewrite map_map.
    erewrite map_ext; [apply Permutation_refl|].
    intros s. now destruct (negb _).
Qed.

Lemma registeredIds_app (ops more : list RosterOp) :
  registeredIds (ops ++ more) = registeredIds ops ++ registeredIds more.
Proof. unfold registeredIds. apply flat_map_app. Qed.

(** X2.  Whatever the sequence of roster rewrites, the identifiers in
    the roster are, as a multiset, exactly those given out by the
    registrations: no rewrite adds, drops or changes an identifier, so the
    roster has one record for each registration.  Nothing is said of the
    other fields of the records: an update overwrites every record that
    has its id. *)
Theorem roster_ids_are_registered_ids (ops : list RosterOp) :
  Permutation (map Student.id (rosterAfter ops)) (registeredIds ops).
Proof.
  induction ops as [|op ops IH] using rev_ind.
  - apply perm_nil.
  - rewrite fold_applyOp_app, registeredIds_app. simpl fold_left.
    eapply perm_trans; [apply applyOp_ids|].
    now apply Permutation_app_tail.
Qed.

(** ** Submitting the register form *)

Lemma missingRequired_spec (f : FormData.t) :
  RegisterView.missingRequired f = true <->
  FormData.class f = "" \/ FormData.number f = "" \/ FormData.name f = "".
Proof.
  unfold RegisterView.missingRequired.
  rewrite !orb_true_iff, !String.eqb_eq. tauto.
Qed.

(** X3.  [handleSubmit] acts on the form exactly when class, number and
    name are all non-empty.  With one of them empty, the roster, the form
    and the student being edited stay as they are and only an alert is
    added.  Otherwise the form is cleared, editing ends, and the roster
    holds a student carrying the five form fields (MBTI and notes may be
    empty). *)
Theorem submit_requires_class_number_name
        (now : Z) (v : RegisterView.t) (app : App.t) :
  let f := RegisterView.formData v in
  let after := RegisterView.handleSubmit now (v, app) in
  (FormData.class f = "" \/ FormData.number f = "" \/ FormData.name f = "" ->
   fst after = v /\
   App.students (snd after) = App.students app /\
   App.alerts (snd after) = App.alerts app ++ ["반, 번호, 이름은 필수 항목입니다."]) /\
  (FormData.class f <> "" /\ FormData.number f <> "" /\ FormData.name f <> "" ->
   fst after = RegisterView.initial /\
   List.length (App.alerts (snd after)) = S (List.length (App.alerts app)) /\
   exists s, In s (App.students (snd after)) /\ formOf s = f).
Proof.
  intros f after. subst after. unfold RegisterView.handleSubmit.
  destruct (RegisterView.missingRequired (RegisterView.formData v)) eqn:E.
  - split; [auto|].
    apply missingRequired_spec in E. fold f in E. tauto.
  - split.
    { intros H. apply missingRequired_spec in H. fold f in E. congruence. }
    intros _. split; [reflexivity|].
    destruct (RegisterView.editingStudent (App.students app) v) as [editing|] eqn:Hedit;
      simpl.
    + split; [rewrite length_app; simpl; lia|].
      exists (Student.withForm editing (RegisterView.formData v)).
      split; [|subst f; now destruct (RegisterView.formData v)].
      apply updateStudent_In, in_map_iff. exists editing. split.
      * change (Student.id (Student.withForm editing (RegisterView.formData v)))
          with (Student.id editing).
        now rewrite String.eqb_refl.
      * unfold RegisterView.editingStudent, resolveStudent in Hedit.
        destruct (RegisterView.editingStudentId v); [|discriminate].
        now apply findStudent_id in Hedit.
    + split; [rewrite length_app; simpl; lia|].
      exists (newStudent now (RegisterView.formData v)). split.
      * unfold addStudent.
        eapply Permutation_in; [apply Permutation_sym, sort_Permutation|].
        apply in_or_app. right. now left.
      * subst f. now destruct (RegisterView.formData v).
Qed.

Lemma same_id_same_student (l : list Student.t) (x y : Student.t) :
  NoDup (map Student.id l) -> In x l -> In y l ->
  Student.id x = Student.id y -> x = y.
Proof.
  induction l as [|a l IH]; simpl; [tauto|].
  intros Hnd Hx Hy Hid. inversion Hnd as [|? ? Hnotin Hnd']; subst.
  destruct Hx as [->|Hx], Hy as [->|Hy]; trivial.
  - elim Hnotin. rewrite Hid. now apply in_map.
  - elim Hnotin. rewrite <- Hid. now apply in_map.
  - now apply IH.
Qed.

(** X4.  Opening a student in the register form and submitting the
    form untouched changes nothing in the roster, provided identifiers are
    unique and the student has class, number and name: what
    [handleStudentSelect] loads is what [handleSubmit] writes back. *)
Theorem select_then_submit_keeps_roster
        (ops : list RosterOp) (now : Z) (studentId : string)
        (v : RegisterView.t) (app : App.t) (s : Student.t) :
  App.students app = rosterAfter ops ->
  NoDup (map Student.id (App.students app)) ->
  findStudent studentId (App.students app) = Some s ->
  RegisterView.missingRequired (formOf s) = false ->
  let opened := RegisterView.handleStudentSelect (App.students app) studentId v in
  RegisterView.editingStudent (App.students app) opened = Some s /\
  App.students (snd (RegisterView.handleSubmit now (opened, app))) = App.students app /\
  fst (RegisterView.handleSubmit now (opened, app)) = RegisterView.initial.
Proof.
  intros Hreach Hnodup Hfind Hvalid. cbn zeta.
  unfold RegisterView.handleStudentSelect. rewrite Hfind.
  fold (formOf s).
  assert (Hedit : RegisterView.editingStudent (App.students app)
                    (RegisterView.mk (formOf s) (Some studentId)) = Some s)
    by exact Hfind.
  split; trivial.
  unfold RegisterView.handleSubmit.
  cbn [RegisterView.formData]. rewrite Hvalid, Hedit.
  split; [|reflexivity].
  assert (Hsame : Student.withForm s (formOf s) = s) by now destruct s.
  rewrite Hsame. simpl. unfold updateStudent.
  destruct (findStudent_id _ _ Hfind) as [Hin _].
  rewrite (map_ext_in _ (fun x => x)).
  - rewrite map_id. apply sort_of_Sorted.
    rewrite Hreach. apply rosterAfter_Sorted.
  - intros x Hx. destruct (String.eqb (Student.id x) (Student.id s)) eqn:E; trivial.
    apply String.eqb_eq in E. symmetry.
    now apply (same_id_same_student (App.students app)).
Qed.
End IdentityFacts.

Lemma select_then_submit_keeps_roster_witness :
  let ops := [Register 1 (FormData.mk "3" "12" "Kim" "" "");
              Register 2 (FormData.mk "1" "5" "Lee" "INTJ" "")] in
  let app := App.setStudents
               (fun _ => rosterAfter (collation := codeUnitCollation) ops)
               App.initial in
  App.students
    (snd (RegisterView.handleSubmit (collation := codeUnitCollation) 9
            (RegisterView.handleStudentSelect (App.students app) "1"
                                              RegisterView.initial, app)))
  = App.students app.
Proof.
  intros ops app.
  refine (proj1 (proj2 (select_then_submit_keeps_roster
                          (collation := codeUnitCollation) ops 9 "1"
                          RegisterView.initial app
                          (s := Student.mk "1" "3" "12" "Kim" "" "" [])
                          eq_refl _ eq_refl eq_refl))).
  repeat constructor; simpl; intuition discriminate.
Defined.

Lemma submit_requires_class_number_name_witness :
  let v := RegisterView.mk (FormData.mk "3" "" "Kim" "" "") None in
  App.students (snd (RegisterView.handleSubmit (collation := codeUnitCollation)
                       5 (v, App.initial))) = [].
Proof.
  intros v.
  refine (proj1 (proj2 (proj1 (submit_requires_class_number_name
                                 (collation := codeUnitCollation) 5 v App.initial) _))).
  right. left. reflexivity.
Defined.

(** ** Saving to a target that is not there *)

Lemma map_unchanged (A : Type) (f : A -> A) (l : list A) :
  (forall x, In x l -> f x = x) -> map f l = l.
Proof.
  intros H. rewrite (map_ext_in f (fun x => x)) by exact H. apply map_id.
Qed.

Lemma findCounsel_none (counselId : string) (counsels : list Counsel.t) (c : Counsel.t) :
  findCounsel counselId counsels = None -> In c counsels ->
  String.eqb (Counsel.id c) counselId = false.
Proof.
  intros Hnone Hin. exact (find_none _ _ Hnone c Hin).
Qed.

(** X5.  [handleSaveEducationData] aimed at a student id that no
    student has, or at a counsel id that no counsel of the students with
    that id has, leaves the whole state of [App] as it was. *)
Theorem save_to_unknown_target_changes_nothing
        (studentId counselId : string) (image : option string) (notes : string)
        (app : App.t) :
  (forall s, In s (App.students app) -> Student.id s = studentId ->
             findCounsel counselId (Student.counsels s) = None) ->
  handleSaveEducationData studentId counselId image notes app = app.
Proof.
  intros Hnone. unfold handleSaveEducationData, App.setStudents.
  assert (Hsame : saveEducationData studentId counselId image notes (App.students app)
                  = App.students app).
  { unfold saveEducationData. apply map_unchanged. intros s Hs.
    destruct (String.eqb (Student.id s) studentId) eqn:E; simpl; trivial.
    apply String.eqb_eq in E.
    rewrite map_unchanged; [now destruct s|].
    intros c Hc.
    now rewrite (@findCounsel_none counselId (Student.counsels s) c (Hnone s Hs E) Hc). }
  rewrite Hsame. now destruct app.
Qed.

Lemma save_to_unknown_target_changes_nothing_witness :
  let s1 := Counsel.mk "11" "d1" None (JStr "t1") (JStr "f1") (Some "img1") None in
  let kim := Student.mk "7" "3" "12" "Kim" "" "" [s1] in
  let app := App.setStudents (fun _ => [kim]) App.initial in
  handleSaveEducationData "7" "12" None "n1" app = app /\
  handleSaveEducationData "8" "11" None "n1" app = app.
Proof.
  intros s1 kim app. split.
  - apply (@save_to_unknown_target_changes_nothing "7" "12" None "n1" app).
    intros s [<-|[]] _. reflexivity.
  - apply (@save_to_unknown_target_changes_nothing "8" "11" None "n1" app).
    intros s [<-|[]] H. discriminate H.
Defined.

(** ** When a run of the pipeline adds a session *)

Lemma malformed_false (r : Reply) :
  malformed r = false ->
  exists v, r = Parsed v /\ forall key, getProp v key <> None.
Proof.
  destruct r as [e|e|v]; try discriminate.
  destruct v; try discriminate; intros _; eexists; split; try reflexivity;
    intros key; discriminate.
Qed.

(** What a completed [try] block was built from. *)
Lemma buildCounsel_normal (students : list Student.t) (selectedStudentId : string)
      (audioBlob : Blob.t) (env : RoundTrip.t) (newCounsel : Counsel.t) :
  buildCounsel students selectedStudentId audioBlob env = Normal newCounsel ->
  exists v transcription feedback,
    RoundTrip.reply env = Parsed v /\
    getProp v "transcription" = Some transcription /\
    getProp v "feedback" = Some feedback /\
    newCounsel = Counsel.mk (toString (RoundTrip.now env)) (RoundTrip.localeNow env)
                            (Some audioBlob) transcription feedback None None.
Proof.
  unfold buildCounsel, readProp.
  destruct (findStudent selectedStudentId students); [|discriminate].
  destruct (RoundTrip.base64Audio env); [|discriminate]. simpl.
  destruct (RoundTrip.reply env) as [e|e|v]; simpl; try discriminate.
  destruct (getProp v "transcription") as [heard|] eqn:Hheard; simpl; [|discriminate].
  destruct (getProp v "feedback") as [advice|] eqn:Hadvice; simpl; [|discriminate].
  intros [= <-]. exists v, heard, advice. repeat split; trivial.
Qed.

(** X6.  A run started with captured audio and a selected student id
    adds a session exactly when the id resolves in the roster of the call,
    the audio could be encoded and the reply is not malformed; nothing
    else about the reply is looked at.  The session then has the clock
    reading as id, the captured audio, whatever the reply holds under
    [transcription] and [feedback] ([undefined] when absent), and no
    annotations. *)
Theorem run_adds_session_exactly_when
        (env : RoundTrip.t) (app : App.t) (audioBlob : Blob.t)
        (selectedStudentId : string) :
  App.audioBlob app = Some audioBlob ->
  truthyString (App.selectedStudentId app) = Some selectedStudentId ->
  ((exists newCounsel, runOutcome env app = Some (Normal newCounsel)) <->
   (exists s, findStudent selectedStudentId (App.students app) = Some s) /\
   (exists encoded, RoundTrip.base64Audio env = Normal encoded) /\
   malformed (RoundTrip.reply env) = false) /\
  (forall newCounsel,
      runOutcome env app = Some (Normal newCounsel) ->
      exists v transcription feedback,
        RoundTrip.reply env = Parsed v /\
        getProp v "transcription" = Some transcription /\
        getProp v "feedback" = Some feedback /\
        newCounsel = Counsel.mk (toString (RoundTrip.now env)) (RoundTrip.localeNow env)
                                (Some audioBlob) transcription feedback None None).
Proof.
  intros Hblob Hsid. unfold runOutcome. rewrite Hblob, Hsid.
  unfold buildCounsel, readProp.
  destruct (findStudent selectedStudentId (App.students app)) as [s|]; simpl.
  2:{ split; [split|]; [intros [c [=]]|intros [[s [=]] _]|intros c [=]]. }
  destruct (RoundTrip.base64Audio env) as [encoded|error]; simpl.
  2:{ split; [split|]; [intros [c [=]]|intros [_ [[e [=]] _]]|intros c [=]]. }
  destruct (malformed (RoundTrip.reply env)) eqn:Hbad.
  - assert (Hthrow : forall c,
               bind match RoundTrip.reply env with
                    | Parsed v => Normal v
                    | Rejected e | Unparseable e => Throw e
                    end
                    (fun jsonResponse =>
                       bind match getProp jsonResponse "transcription" with
                            | Some v => Normal v
                            | None => Throw "TypeError: Cannot read properties of null"
                            end
                            (fun transcription =>
                               bind match getProp jsonResponse "feedback" with
                                    | Some v => Normal v
                                    | None => Throw "TypeError: Cannot read properties of null"
                                    end
                                    (fun feedback =>
                                       Normal (Counsel.mk (toString (RoundTrip.now env))
                                                          (RoundTrip.localeNow env)
                                                          (Some audioBlob) transcription
                                                          feedback None None))))
               <> Normal c).
    { intros c. destruct (RoundTrip.reply env) as [e|e|v]; simpl; try discriminate.
      destruct v; simpl; try discriminate. }
    split; [split|].
    + intros [c [= H]]. now elim (Hthrow c).
    + intros (_ & _ & [=]).
    + intros c [= H]. now elim (Hthrow c).
  - destruct (malformed_false _ Hbad) as (v & Hv & Hprops). rewrite Hv. simpl.
    destruct (getProp v "transcription") as [t|] eqn:Ht; [|now elim (Hprops "transcription")].
    destruct (getProp v "feedback") as [f|] eqn:Hf; [|now elim (Hprops "feedback")].
    simpl. split; [split|].
    + intros _. eauto.
    + intros _. eauto.
    + intros c [= <-]. exists v, t, f. auto.
Qed.

Lemma run_adds_session_exactly_when_witness :
  let blob := Blob.mk [Byte.x52; Byte.x49] "audio/webm" in
  let kim := Student.mk "7" "3" "12" "Kim" "" "" [] in
  let app := App.setAudioBlob (Some blob)
               (App.setSelectedStudentId (Some "7")
                  (App.setStudents (fun _ => [kim]) App.initial)) in
  let env := RoundTrip.mk (Normal "Ukk=") (Parsed (JArr [])) 1700000000000 "d1" in
  exists newCounsel, runOutcome env app = Some (Normal newCounsel).
Proof.
  intros blob kim app env.
  apply (proj1 (run_adds_session_exactly_when env app
                  (audioBlob := blob) (selectedStudentId := "7") eq_refl eq_refl)).
  split; [eexists; reflexivity|].
  split; [eexists; reflexivity|reflexivity].
Defined.

(** X7.  The run is asynchronous, and what it closed over at the call
    decides where the session goes: it is prepended to the students with
    the id selected when the run started, in the roster as it is when the
    reply arrives, and carries the audio captured before the run; the
    selection made in the meantime is not touched, and whatever audio is
    then pending is dropped. *)
Theorem session_goes_to_student_selected_at_start
        (env : RoundTrip.t) (meanwhile : App.t -> App.t) (app : App.t)
        (audioBlob : Blob.t) (selectedStudentId : string) (newCounsel : Counsel.t) :
  App.audioBlob app = Some audioBlob ->
  truthyString (App.selectedStudentId app) = Some selectedStudentId ->
  runOutcome env app = Some (Normal newCounsel) ->
  let waiting := meanwhile (App.setIsLoading true app) in
  let after := handleTranscribeAndFeedbackAsync env meanwhile app in
  App.students after = prependCounsel selectedStudentId newCounsel (App.students waiting) /\
  Counsel.audio newCounsel = Some audioBlob /\
  App.selectedStudentId after = App.selectedStudentId waiting /\
  App.audioBlob after = None /\
  App.isLoading after = false /\
  App.alerts after = App.alerts waiting.
Proof.
  intros Hblob Hsid Hrun.
  unfold runOutcome in Hrun. rewrite Hblob, Hsid in Hrun. injection Hrun as Hrun.
  destruct (buildCounsel_normal _ _ _ _ Hrun) as (v & t & f & _ & _ & _ & ->).
  unfold handleTranscribeAndFeedbackAsync. rewrite Hblob, Hsid, Hrun.
  simpl. repeat split.
Qed.

Lemma session_goes_to_student_selected_at_start_witness :
  let blob := Blob.mk [Byte.x52; Byte.x49] "audio/webm" in
  let kim := Student.mk "7" "3" "12" "Kim" "" "" [] in
  let lee := Student.mk "8" "1" "5" "Lee" "" "" [] in
  let app := App.setAudioBlob (Some blob)
               (App.setSelectedStudentId (Some "7")
                  (App.setStudents (fun _ => [lee; kim]) App.initial)) in
  let env := RoundTrip.mk (Normal "Ukk=")
                          (Parsed (JObj [("transcription", JStr "t1"); ("feedback", JStr "f1")]))
                          1700000000000 "d1" in
  let c := Counsel.mk "1700000000000" "d1" (Some blob) (JStr "t1") (JStr "f1") None None in
  App.students (handleTranscribeAndFeedbackAsync env (App.setSelectedStudentId (Some "8")) app)
  = [lee; Student.withCounsels kim [c]].
Proof.
  intros blob kim lee app env c.
  exact (proj1 (session_goes_to_student_selected_at_start env
                  (App.setSelectedStudentId (Some "8")) app
                  (audioBlob := blob) (selectedStudentId := "7") (newCounsel := c)
                  eq_refl eq_refl eq_refl)).
Defined.

(** ** The form of the education view *)

Lemma handleSave_blocked (v : EducationView.t) (app : App.t) :
  EducationView.canSave v = false -> EducationView.handleSave (v, app) = (v, app).
Proof.
  unfold EducationView.canSave, EducationView.handleSave.
  destruct (truthyString (EducationView.selectedStudentId v)); trivial.
  destruct (truthyString (EducationView.selectedCounselId v)); trivial.
  now destruct (EducationView.isModified v).
Qed.

Lemma step_Save_blocked (v : EducationView.t) (app : App.t) :
  EducationView.canSave v = false ->
  EducationView.step EducationView.Save (v, app) = (v, app).
Proof.
  intros H. unfold EducationView.step. rewrite (handleSave_blocked v app H), H.
  rewrite sameCounsel_refl.
  now destruct (EducationView.selectedCounsel (App.students app) v).
Qed.

Lemma canSave_true (v : EducationView.t) :
  EducationView.canSave v = true ->
  exists studentId counselId,
    EducationView.selectedStudentId v = Some studentId /\
    EducationView.selectedCounselId v = Some counselId /\
    truthyString (Some studentId) = Some studentId /\
    truthyString (Some counselId) = Some counselId /\
    EducationView.isModified v = true.
Proof.
  unfold EducationView.canSave.
  destruct (EducationView.selectedStudentId v) as [sid|] eqn:Hs; [|discriminate].
  destruct (EducationView.selectedCounselId v) as [cid|] eqn:Hc.
  2:{ simpl. now destruct (if String.eqb sid "" then None else Some sid). }
  destruct (truthyString (Some sid)) as [sid'|] eqn:Hs'; [|discriminate].
  destruct (truthyString (Some cid)) as [cid'|] eqn:Hc'; [|discriminate].
  destruct (EducationView.isModified v); [|discriminate].
  intros _. exists sid, cid. simpl in *.
  destruct (String.eqb sid ""); [discriminate|].
  destruct (String.eqb cid ""); [discriminate|]. auto.
Qed.

Lemma resolveCounsel_saved_none (students : list Student.t)
      (studentId counselId : string) (image : option string) (notes : string) :
  resolveCounsel students (Some studentId) (Some counselId) = None ->
  resolveCounsel (saveEducationData studentId counselId image notes students)
                 (Some studentId) (Some counselId) = None.
Proof.
  unfold resolveCounsel, resolveStudent, findStudent, saveEducationData.
  rewrite find_map_same_test.
  2:{ intros x. now destruct (negb (String.eqb (Student.id x) studentId)). }
  destruct (find _ students) as [s|] eqn:Hs; simpl; trivial.
  apply find_some in Hs. destruct Hs as [_ Hs]. rewrite Hs. simpl.
  unfold findCounsel. rewrite find_map_same_test.
  2:{ intros x. now destruct (negb (String.eqb (Counsel.id x) counselId)). }
  now intros ->.
Qed.

(** A save that gets past its guard, as one state. *)
Lemma step_Save_eq (v : EducationView.t) (app : App.t) (studentId counselId : string) :
  EducationView.selectedStudentId v = Some studentId ->
  EducationView.selectedCounselId v = Some counselId ->
  truthyString (Some studentId) = Some studentId ->
  truthyString (Some counselId) = Some counselId ->
  EducationView.isModified v = true ->
  EducationView.step EducationView.Save (v, app)
  = let app' := App.alert "저장되었습니다."
                  (handleSaveEducationData studentId counselId
                     (EducationView.image v) (EducationView.notes v) app) in
    let v' := EducationView.mk (Some studentId) (Some counselId)
                               (EducationView.image v) (EducationView.notes v) false in
    match resolveCounsel (App.students app) (Some studentId) (Some counselId) with
    | Some c =>
        (EducationView.onSelectedCounsel
           (Some (annotate (EducationView.image v) (EducationView.notes v) c)) v', app')
    | None => (v', app')
    end.
Proof.
  destruct v as [vs vk vi vn vm].
  cbn [EducationView.selectedStudentId EducationView.selectedCounselId
       EducationView.isModified EducationView.image EducationView.notes].
  intros -> -> Hs Hc ->.
  unfold EducationView.step, EducationView.handleSave, EducationView.canSave,
    EducationView.selectedCounsel.
  cbn [EducationView.selectedStudentId EducationView.selectedCounselId
       EducationView.isModified EducationView.image EducationView.notes].
  rewrite Hs, Hc.
  cbn [App.students App.alert handleSaveEducationData App.setStudents].
  destruct (resolveCounsel (App.students app) (Some studentId) (Some counselId))
    as [c|] eqn:Hbefore.
  - rewrite (resolveCounsel_saved _ _ _ _ _ Hbefore). simpl.
    now rewrite String.eqb_refl.
  - now rewrite (resolveCounsel_saved_none _ _ _ _ _ Hbefore).
Qed.

(** What a save that gets past its guard leaves behind. *)
Lemma step_Save_done (v : EducationView.t) (app : App.t) :
  EducationView.canSave v = true ->
  EducationView.isModified (fst (EducationView.step EducationView.Save (v, app))) = false /\
  formSynced (EducationView.step EducationView.Save (v, app)).
Proof.
  intros Hcan.
  destruct (canSave_true v Hcan) as (sid & cid & Hs & Hc & Hs' & Hc' & Hm).
  rewrite (step_Save_eq v app Hs Hc Hs' Hc' Hm). cbn zeta.
  destruct (resolveCounsel (App.students app) (Some sid) (Some cid)) as [c|] eqn:Hbefore.
  - split; [reflexivity|].
    unfold formSynced, EducationView.selectedCounsel. simpl.
    rewrite (resolveCounsel_saved _ _ _ _ _ Hbefore).
    intros c' [= <-] _. simpl. auto.
  - split; [reflexivity|].
    unfold formSynced, EducationView.selectedCounsel. simpl.
    rewrite (resolveCounsel_saved_none _ _ _ _ _ Hbefore). discriminate.
Qed.

(** X11.  Saving twice in a row is saving once: after a save the form
    counts as unmodified, so the second press changes neither the roster
    nor the form, and shows no second message. *)
Theorem save_twice_is_save_once (st : EducationView.t * App.t) :
  EducationView.run [EducationView.Save; EducationView.Save] st
  = EducationView.run [EducationView.Save] st.
Proof.
  destruct st as [v app]. unfold EducationView.run. cbn [fold_left].
  destruct (EducationView.canSave v) eqn:Hcan.
  - destruct (step_Save_done v app Hcan) as [Hm _].
    destruct (EducationView.step EducationView.Save (v, app)) as [v1 app1].
    apply step_Save_blocked. simpl in Hm.
    unfold EducationView.canSave. rewrite Hm.
    destruct (truthyString (EducationView.selectedStudentId v1)); trivial.
    now destruct (truthyString (EducationView.selectedCounselId v1)).
  - now rewrite !(step_Save_blocked v app Hcan).
Qed.

Lemma onSelectedCounsel_synced (after : option Counsel.t) (v : EducationView.t) (app : App.t) :
  EducationView.selectedCounsel (App.students app) v = after ->
  formSynced (EducationView.onSelectedCounsel after v, app).
Proof.
  intros Hafter. unfold formSynced, EducationView.selectedCounsel in *.
  destruct after as [c|]; simpl; rewrite Hafter.
  - intros c' [= <-] _. auto.
  - discriminate.
Qed.

(** Two lookups in one list that end on counsels of one id end on the
    same counsel. *)
Lemma resolveCounsel_same_id (students : list Student.t)
      (studentId counselId counselId' : option string) (b c : Counsel.t) :
  resolveCounsel students studentId counselId = Some b ->
  resolveCounsel students studentId counselId' = Some c ->
  String.eqb (Counsel.id b) (Counsel.id c) = true ->
  counselId = counselId'.
Proof.
  unfold resolveCounsel.
  destruct (resolveStudent students studentId) as [s|]; [|discriminate].
  destruct counselId as [k|]; [|discriminate].
  destruct counselId' as [k'|]; [|discriminate].
  intros Hb Hc Hid. apply find_some in Hb, Hc.
  destruct Hb as [_ Hb], Hc as [_ Hc].
  apply String.eqb_eq in Hb, Hc, Hid. congruence.
Qed.

Lemma step_synced (e : EducationView.Event) (st : EducationView.t * App.t) :
  formSynced st -> formSynced (EducationView.step e st).
Proof.
  destruct st as [v app]. intros Hsynced.
  destruct e as [sid|cid| |file|value| ].
  - (* another student: no counsel is focused afterwards *)
    unfold EducationView.step. cbn zeta.
    destruct (negb _ || false).
    + now apply onSelectedCounsel_synced.
    + unfold formSynced, EducationView.selectedCounsel, resolveCounsel. simpl.
      destruct (resolveStudent (App.students app) sid); discriminate.
  - unfold EducationView.step. cbn zeta.
    destruct (EducationView.sameCounsel _ _) eqn:Hsame; simpl.
    + unfold formSynced, EducationView.selectedCounsel in *. simpl in *.
      intros c Hc Hm.
      destruct (resolveCounsel (App.students app) (EducationView.selectedStudentId v)
                               (EducationView.selectedCounselId v)) as [b|] eqn:Hb;
        rewrite Hc in Hsame; simpl in Hsame; [|discriminate].
      pose proof (resolveCounsel_same_id _ _ _ _ Hb Hc Hsame) as Hid.
      rewrite Hid, Hc in Hb. injection Hb as <-.
      apply Hsynced; trivial.
    + now apply onSelectedCounsel_synced.
  - unfold EducationView.step. cbn zeta.
    destruct (negb _ || false).
    + now apply onSelectedCounsel_synced.
    + unfold formSynced, EducationView.selectedCounsel, resolveCounsel. simpl.
      destruct (resolveStudent (App.students app) (EducationView.selectedStudentId v));
        discriminate.
  - rewrite step_ImageChange. destruct file as [dataUrl|]; trivial.
    unfold formSynced. simpl. discriminate.
  - rewrite step_NotesChange. unfold formSynced. simpl. discriminate.
  - destruct (EducationView.canSave v) eqn:Hcan.
    + now apply step_Save_done.
    + now rewrite step_Save_blocked.
Qed.

(** X12.  Whatever is done in [EducationView] since it was mounted,
    whenever a counsel is in focus and the form is not marked as modified,
    the form shows what the roster holds for that counsel: its image
    (none when absent or empty) and its notes (empty when absent). *)
Theorem unmodified_form_shows_stored
        (events : list EducationView.Event) (app : App.t) :
  formSynced (EducationView.run events (EducationView.initial, app)).
Proof.
  assert (H : forall st, formSynced st -> formSynced (EducationView.run events st)).
  { induction events as [|e events IH]; simpl; intros st Hst; trivial.
    now apply IH, step_synced. }
  apply H. unfold formSynced, EducationView.selectedCounsel, resolveCounsel. simpl.
  discriminate.
Qed.

Lemma unmodified_form_shows_stored_witness :
  let s1 := Counsel.mk "11" "d1" None (JStr "t1") (JStr "f1") (Some "img1") (Some "n1") in
  let kim := Student.mk "7" "3" "12" "Kim" "" "" [s1] in
  let app := App.setStudents (fun _ => [kim]) App.initial in
  let st := EducationView.run [EducationView.StudentClick (Some "7");
                               EducationView.CounselClick "11"]
                              (EducationView.initial, app) in
  EducationView.image (fst st) = Some "img1" /\ EducationView.notes (fst st) = "n1".
Proof.
  intros s1 kim app st.
  exact (unmodified_form_shows_stored
           [EducationView.StudentClick (Some "7"); EducationView.CounselClick "11"]
           app s1 eq_refl eq_refl).
Defined.

(** ** Text taken apart by [split] *)

Lemma split_free (sep : ascii) (s : string) :
  freeOf sep s = true -> split sep s = [s].
Proof.
  induction s as [|c s IH]; simpl; trivial.
  destruct (Ascii.eqb c sep); simpl; [discriminate|].
  intros H. now rewrite IH.
Qed.

Lemma split_at_first (sep : ascii) (a b : string) :
  freeOf sep a = true ->
  split sep (a ++ String sep b)%string = a :: split sep b.
Proof.
  induction a as [|c a IH]; simpl.
  - now rewrite Ascii.eqb_refl.
  - destruct (Ascii.eqb c sep); simpl; [discriminate|].
    intros H. now rewrite IH.
Qed.

Lemma freeOf_app (sep : ascii) (a b : string) :
  freeOf sep (a ++ b)%string = freeOf sep a && freeOf sep b.
Proof.
  induction a as [|c a IH]; simpl; trivial.
  now rewrite IH, andb_assoc.
Qed.

Lemma append_assoc (a b c : string) : ((a ++ b) ++ c = a ++ (b ++ c))%string.
Proof. induction a as [|x a IH]; simpl; trivial. now rewrite IH. Qed.

Lemma split_head (sep : ascii) (s : string) :
  exists line rest, split sep s = line :: rest /\ freeOf sep line = true /\
                    (rest = [] /\ s = line \/
                     exists tail, s = (line ++ String sep tail)%string).
Proof.
  induction s as [|c s (line & rest & Hsplit & Hfree & Hshape)]; simpl.
  - exists EmptyString, []. auto.
  - destruct (Ascii.eqb c sep) eqn:E.
    + apply Ascii.eqb_eq in E. subst c.
      exists EmptyString, (split sep s). simpl. eauto.
    + rewrite Hsplit. exists (String c line), rest. simpl. rewrite E, Hfree.
      repeat split. destruct Hshape as [[-> ->]|[tail ->]]; eauto.
Qed.

(** X13.  [blobToBase64] resolves with the text between the first and
    the second comma of what the reader produced.  For a data URL
    [data:<type>;base64,<payload>] whose type has no comma this is the
    payload (base64 text has none); a type with a comma in it, as in a
    quoted codecs list, would cut the result short at the second comma, and
    a result without any comma resolves with [undefined]; a reader that
    ends without a string, or with an error, rejects. *)
Theorem blobToBase64_takes_second_piece (type payload : string) :
  freeOf "," type = true -> freeOf "," payload = true ->
  blobToBase64 (LoadEnd (Some ("data:" ++ type ++ ";base64," ++ payload)%string))
  = Normal (Some payload) /\
  (forall more,
      blobToBase64
        (LoadEnd (Some ("data:" ++ type ++ "," ++ payload ++ "," ++ more)%string))
      = Normal (Some payload)) /\
  blobToBase64 (LoadEnd (Some ("data:" ++ type ++ payload)%string)) = Normal None /\
  (exists error, blobToBase64 (LoadEnd None) = Throw error) /\
  (forall error, blobToBase64 (ReadError error) = Throw error).
Proof.
  intros Htype Hpayload.
  assert (Hprefix : freeOf "," ("data:" ++ type ++ ";base64")%string = true)
    by (rewrite !freeOf_app, Htype; reflexivity).
  assert (Hprefix' : freeOf "," ("data:" ++ type)%string = true)
    by (rewrite !freeOf_app, Htype; reflexivity).
  split; [|split; [|split; [|split]]].
  - unfold blobToBase64.
    replace ("data:" ++ type ++ ";base64," ++ payload)%string
      with (("data:" ++ type ++ ";base64") ++ String "," payload)%string
      by (rewrite !append_assoc; reflexivity).
    rewrite (split_at_first _ _ _ Hprefix), (split_free _ _ Hpayload). reflexivity.
  - intros more. unfold blobToBase64.
    replace ("data:" ++ type ++ "," ++ payload ++ "," ++ more)%string
      with (("data:" ++ type) ++ String "," (payload ++ String "," more))%string
      by (rewrite !append_assoc; reflexivity).
    rewrite (split_at_first _ _ _ Hprefix'), (split_at_first _ _ _ Hpayload). reflexivity.
  - unfold blobToBase64. rewrite split_free; trivial.
    rewrite !freeOf_app, Htype, Hpayload. reflexivity.
  - eexists. reflexivity.
  - reflexivity.
Qed.

Lemma blobToBase64_takes_second_piece_witness :
  blobToBase64 (LoadEnd (Some "data:audio/webm;base64,Ukk=")) = Normal (Some "Ukk=").
Proof.
  exact (proj1 (blobToBase64_takes_second_piece "audio/webm" "Ukk=" eq_refl eq_refl)).
Defined.

(** X14.  The preview of a collapsed log entry is the first line of a
    transcription that is a string: it has no line feed, and the
    transcription is that line, alone or followed by a line feed and the
    rest.  For a session created from a reply without [transcription] the
    preview cannot be computed: the expression throws. *)
Theorem preview_is_first_line
        (students : list Student.t) (selectedStudentId : string)
        (audioBlob : Blob.t) (env : RoundTrip.t) (newCounsel : Counsel.t) :
  buildCounsel students selectedStudentId audioBlob env = Normal newCounsel ->
  (forall text,
      Counsel.transcription newCounsel = JStr text ->
      exists line,
        preview newCounsel = Normal line /\
        freeOf newline line = true /\
        (text = line \/ exists rest, text = (line ++ String newline rest)%string)) /\
  (lacks "transcription" (RoundTrip.reply env) = true ->
   exists error, preview newCounsel = Throw error).
Proof.
  intros Hbuild. split.
  - intros text Htext. unfold preview. rewrite Htext.
    destruct (split_head newline text) as (line & rest & Hsplit & Hfree & Hshape).
    rewrite Hsplit. exists line. simpl. repeat split; trivial.
    destruct Hshape as [[_ ->]|[tail ->]]; eauto.
  - intros Hlacks.
    destruct (buildCounsel_normal _ _ _ _ Hbuild) as (v & t & f & Hv & Ht & _ & ->).
    unfold lacks in Hlacks. rewrite Hv, Ht in Hlacks.
    unfold preview. simpl. destruct t; try discriminate. eauto.
Qed.

Lemma preview_is_first_line_witness :
  let blob := Blob.mk [Byte.x52; Byte.x49] "audio/webm" in
  let kim := Student.mk "7" "3" "12" "Kim" "" "" [] in
  let env := RoundTrip.mk (Normal "Ukk=")
                          (Parsed (JObj [("feedback", JStr "f1")]))
                          1700000000000 "d1" in
  exists error,
    preview (Counsel.mk "1700000000000" "d1" (Some blob) JUndefined (JStr "f1") None None)
    = Throw error.
Proof.
  intros blob kim env.
  exact (proj2 (preview_is_first_line [kim] "7" blob env
                  (newCounsel := Counsel.mk "1700000000000" "d1" (Some blob)
                                            JUndefined (JStr "f1") None None)
                  eq_refl) eq_refl).
Defined.

(** ** What the education view puts on screen *)

Lemma existsb_find (A : Type) (p : A -> bool) (l : list A) :
  existsb p l = true -> exists x, find p l = Some x.
Proof.
  induction l as [|a l IH]; simpl; [discriminate|].
  destruct (p a); eauto.
Qed.

Lemma step_roster (e : EducationView.Event) (v : EducationView.t) (app : App.t) :
  e <> EducationView.Save -> snd (EducationView.step e (v, app)) = app.
Proof.
  intros He. unfold EducationView.step.
  destruct e; try reflexivity. now elim He.
Qed.

Lemma showsCounselList_render (isMobile : bool) (students : list Student.t)
      (v : EducationView.t) (s : Student.t) :
  EducationPanes.showsCounselList (EducationPanes.render isMobile students v) = Some s ->
  EducationView.selectedStudent students v = Some s.
Proof.
  unfold EducationPanes.render, EducationPanes.renderCounselList,
    EducationPanes.renderEducationForm, EducationPanes.showsCounselList.
  destruct isMobile.
  - destruct (isFalsy (EducationView.selectedStudentId v)); [discriminate|].
    destruct (isFalsy (EducationView.selectedCounselId v)).
    + destruct (EducationView.selectedStudent students v); simpl; congruence.
    + destruct (EducationView.selectedStudent students v); [|discriminate].
      destruct (EducationView.selectedCounsel students v); discriminate.
  - destruct (EducationView.selectedStudent students v) as [s0|]; [|discriminate].
    destruct (isFalsy (EducationView.selectedCounselId v)); simpl; [congruence|].
    destruct (EducationView.selectedCounsel students v); discriminate.
Qed.

Lemma resolveStudent_saved (students : list Student.t) (id : option string)
      (studentId counselId : string) (image : option string) (notes : string)
      (s : Student.t) :
  resolveStudent students id = Some s ->
  exists s', resolveStudent (saveEducationData studentId counselId image notes students) id
             = Some s'.
Proof.
  unfold resolveStudent, findStudent, saveEducationData.
  destruct id as [id|]; [|discriminate].
  rewrite find_map_same_test.
  2:{ intros x. now destruct (negb (String.eqb (Student.id x) studentId)). }
  intros ->. simpl. eauto.
Qed.

Lemma gated_step_resolves (occurrence : bool * EducationView.Event)
      (st : EducationView.t * App.t) :
  EducationPanes.focusResolves st ->
  EducationPanes.focusResolves (EducationPanes.step occurrence st).
Proof.
  destruct occurrence as [isMobile e]. destruct st as [v app]. intros Hres.
  unfold EducationPanes.step.
  destruct (EducationPanes.offered isMobile e (v, app)) eqn:Hoffered; trivial.
  pose proof (step_focus e v app) as Hfocus. cbn zeta in Hfocus.
  destruct e as [sid|cid| |file|value| ].
  - rewrite (surjective_pairing (EducationView.step _ _)), step_roster by discriminate.
    destruct Hfocus as [Hs Hc]. unfold EducationPanes.focusResolves.
    unfold EducationView.selectedStudent, EducationView.selectedCounsel.
    rewrite Hs, Hc. split; [|now left].
    destruct sid as [sid|]; [right|now left].
    simpl in Hoffered. apply andb_prop in Hoffered. destruct Hoffered as [_ Hlisted].
    now apply existsb_find in Hlisted.
  - rewrite (surjective_pairing (EducationView.step _ _)), step_roster by discriminate.
    destruct Hfocus as [Hs Hc]. unfold EducationPanes.focusResolves.
    unfold EducationView.selectedStudent, EducationView.selectedCounsel.
    rewrite Hs, Hc. simpl in Hoffered.
    destruct (EducationPanes.showsCounselList _) as [s|] eqn:Hlist; [|discriminate].
    apply showsCounselList_render in Hlist.
    unfold EducationView.selectedStudent in Hlist.
    split; [right; eauto|]. right.
    unfold resolveCounsel. rewrite Hlist. now apply existsb_find in Hoffered.
  - rewrite (surjective_pairing (EducationView.step _ _)), step_roster by discriminate.
    destruct Hfocus as [Hs Hc]. unfold EducationPanes.focusResolves.
    unfold EducationView.selectedStudent, EducationView.selectedCounsel.
    rewrite Hs, Hc. split; [apply Hres|now left].
  - rewrite (surjective_pairing (EducationView.step _ _)), step_roster by discriminate.
    destruct Hfocus as [Hs Hc]. unfold EducationPanes.focusResolves.
    unfold EducationView.selectedStudent, EducationView.selectedCounsel.
    rewrite Hs, Hc. exact Hres.
  - rewrite (surjective_pairing (EducationView.step _ _)), step_roster by discriminate.
    destruct Hfocus as [Hs Hc]. unfold EducationPanes.focusResolves.
    unfold EducationView.selectedStudent, EducationView.selectedCounsel.
    rewrite Hs, Hc. exact Hres.
  - destruct (EducationView.canSave v) eqn:Hcan; [|now rewrite step_Save_blocked].
    destruct (canSave_true v Hcan) as (sid & cid & Hs & Hc & Hs' & Hc' & Hm).
    destruct Hres as [Hstudent Hcounsel].
    destruct Hcounsel as [Hnone|[c Hcounsel]]; [congruence|].
    unfold EducationView.selectedCounsel in Hcounsel. rewrite Hs, Hc in Hcounsel.
    rewrite (step_Save_eq v app Hs Hc Hs' Hc' Hm). cbn zeta. rewrite Hcounsel.
    unfold EducationPanes.focusResolves, EducationView.selectedStudent,
      EducationView.selectedCounsel. simpl.
    split; right.
    + pose proof Hcounsel as Hst. unfold resolveCounsel in Hst.
      destruct (resolveStudent (App.students app) (Some sid)) as [s|] eqn:Hstudent';
        [|discriminate].
      exact (@resolveStudent_saved (App.students app) (Some sid) sid cid
               (EducationView.image v) (EducationView.notes v) s Hstudent').
    + rewrite (resolveCounsel_saved _ _ _ _ _ Hcounsel). eauto.
Qed.

Lemma resolves_panes (v : EducationView.t) (app : App.t) :
  EducationPanes.focusResolves (v, app) ->
  List.length (EducationPanes.render true (App.students app) v) = 1%nat /\
  List.length (EducationPanes.render false (App.students app) v) = 2%nat.
Proof.
  intros [Hstudent Hcounsel].
  unfold EducationPanes.render, EducationPanes.renderCounselList,
    EducationPanes.renderEducationForm.
  assert (Hc : isFalsy (EducationView.selectedCounselId v) = false ->
               exists s c, EducationView.selectedStudent (App.students app) v = Some s /\
                           EducationView.selectedCounsel (App.students app) v = Some c).
  { intros Hf. destruct Hcounsel as [Hnone|[c Hc]]; [now rewrite Hnone in Hf|].
    pose proof Hc as Hc'.
    unfold EducationView.selectedCounsel, resolveCounsel in Hc'.
    unfold EducationView.selectedStudent.
    destruct (resolveStudent (App.students app) (EducationView.selectedStudentId v));
      [eauto|discriminate]. }
  assert (Hs : isFalsy (EducationView.selectedStudentId v) = false ->
               exists s, EducationView.selectedStudent (App.students app) v = Some s).
  { intros Hf. destruct Hstudent as [Hnone|Hs]; [now rewrite Hnone in Hf|trivial]. }
  split.
  - destruct (isFalsy (EducationView.selectedStudentId v)); trivial.
    destruct (Hs eq_refl) as [s Hs'].
    destruct (isFalsy (EducationView.selectedCounselId v)).
    + now rewrite Hs'.
    + destruct (Hc eq_refl) as (s' & c & -> & ->). reflexivity.
  - destruct (EducationView.selectedStudent (App.students app) v) as [s|] eqn:Hsel; trivial.
    destruct (isFalsy (EducationView.selectedCounselId v)); trivial.
    destruct (Hc eq_refl) as (s' & c & _ & ->). reflexivity.
Qed.

(** X15.  Through the controls [EducationView] puts on screen, in
    whatever order and with the viewport switching between narrow and wide
    at any time, every id that is set resolves in the roster; so the narrow
    layout always shows exactly one block (never an empty screen) and the
    wide layout exactly two: the student list and one of placeholder,
    counsel list and form. *)
Theorem education_view_never_blank
        (occurrences : list (bool * EducationView.Event)) (app : App.t) :
  let st := EducationPanes.run occurrences (EducationView.initial, app) in
  EducationPanes.focusResolves st /\
  List.length (EducationPanes.render true (App.students (snd st)) (fst st)) = 1%nat /\
  List.length (EducationPanes.render false (App.students (snd st)) (fst st)) = 2%nat.
Proof.
  intros st.
  assert (H : EducationPanes.focusResolves st).
  { subst st. unfold EducationPanes.run.
    assert (Hgen : forall start, EducationPanes.focusResolves start ->
                     EducationPanes.focusResolves
                       (fold_left (fun st o => EducationPanes.step o st) occurrences start)).
    { induction occurrences as [|o occurrences IH]; simpl; intros start Hstart; trivial.
      now apply IH, gated_step_resolves. }
    apply Hgen. split; now left. }
  split; trivial. destruct st as [v app']. now apply resolves_panes.
Qed.

(** ** The recorder *)

Lemma stopRecording_idle (app : App.t) :
  capturing app = false -> stopRecording app = app.
Proof.
  unfold stopRecording, capturing.
  destruct (App.mediaRecorder app); trivial.
  destruct (currentRecorder app); trivial. now intros ->.
Qed.

Lemma nth_error_last (A : Type) (l : list A) (x : A) :
  nth_error (l ++ [x]) (List.length l) = Some x.
Proof. induction l; simpl; trivial. Qed.

Lemma setNth_last (A : Type) (l : list A) (x y : A) :
  setNth (List.length l) y (l ++ [x]) = l ++ [y].
Proof. induction l as [|a l IH]; simpl; trivial. now rewrite IH. Qed.

Lemma released_not_live (l : list MediaRecorder.t) :
  Forall released l -> filter MediaRecorder.tracksLive l = [].
Proof.
  induction 1 as [|r l Hr _ IH]; simpl; trivial. now rewrite Hr.
Qed.

Lemma released_not_queued (l : list MediaRecorder.t) :
  Forall released l -> firstQueued l = None.
Proof.
  induction 1 as [|r l Hr _ IH]; simpl; trivial. now rewrite Hr, IH.
Qed.

Lemma firstQueued_last (l : list MediaRecorder.t) (r : MediaRecorder.t) :
  Forall released l ->
  firstQueued (l ++ [r])
  = if MediaRecorder.stopQueued r then Some (List.length l) else None.
Proof.
  induction 1 as [|x l Hx _ IH]; simpl.
  - now destruct (MediaRecorder.stopQueued r).
  - rewrite Hx, IH. simpl. now destruct (MediaRecorder.stopQueued r).
Qed.

(** C8.  The code at a double click on start.  With a student selected
    and the recorder idle, a first click leaves the start control on offer
    ([startRecording] writes nothing before the device answers), so a
    second click is taken; once both calls are granted two captures are
    live.  The stop control then stops the second recorder only: the state
    is idle with one capture still live, nothing queued that would release
    it, and the stop control gone.  Called in a state that is recording,
    [startRecording] is not rejected either. *)
Theorem double_start_leaves_capture_live :
  let kim := FormData.mk "3" "12" "Kim" "" "" in
  let chunk := Blob.mk [Byte.x52; Byte.x49] "audio/webm" in
  let clicked := [AddStudent 1 kim; OnLogTab (LogView.SelectStudent "1");
                  OnLogTab LogView.StartClick] in
  let both := clicked ++ [OnLogTab LogView.StartClick;
                          OnLogTab (LogView.DeviceAnswers Granted);
                          OnLogTab (LogView.DeviceAnswers Granted)] in
  let stopped := both ++ [OnLogTab LogView.StopClick;
                          OnLogTab (LogView.RecorderStopped chunk)] in
  let run := appRun (collation := codeUnitCollation) in
  LogView.offered LogView.StartClick (run clicked) = true /\
  (App.isRecording (run both) = true /\ App.liveCaptures (run both) = 2%nat) /\
  (App.isRecording (run stopped) = false /\
   App.liveCaptures (run stopped) = 1%nat /\
   firstQueued (App.recorders (run stopped)) = None /\
   LogView.offered LogView.StopClick (run stopped) = false /\
   stopRecording (run stopped) = run stopped) /\
  (App.isRecording (startRecording Granted (run clicked)) = true /\
   App.liveCaptures (startRecording Granted (run clicked)) = 1%nat /\
   App.liveCaptures (startRecording Granted (startRecording Granted (run clicked))) = 2%nat).
Proof. vm_compute. repeat split. Qed.

(** ** Turns of the log tab *)

Lemma start_offered (app : App.t) :
  LogView.offered LogView.StartClick app = true ->
  (exists s, LogView.selectedStudent app = Some s) /\
  App.isRecording app = false /\ App.isLoading app = false.
Proof.
  simpl. destruct (LogView.selectedStudent app) as [s|]; [|discriminate].
  destruct (App.isRecording app); [discriminate|].
  destruct (App.isLoading app); [discriminate|]. eauto.
Qed.

(** A click on start and the device's answer, nothing in between, are
    one uninterrupted call of [startRecording]. *)
Lemma start_turn (answer : DeviceAnswer) (app : App.t) :
  App.pendingStarts app = 0%nat ->
  LogView.run [LogView.StartClick; LogView.DeviceAnswers answer] app
  = if LogView.offered LogView.StartClick app then startRecording answer app else app.
Proof.
  intros Hnone. unfold LogView.run. cbn [fold_left].
  unfold LogView.step at 2.
  destruct (LogView.offered LogView.StartClick app).
  - cbn [LogView.handle]. unfold LogView.step.
    replace (LogView.offered (LogView.DeviceAnswers answer) (startRecordingCall app))
      with true by reflexivity.
    reflexivity.
  - unfold LogView.step. simpl. now rewrite Hnone.
Qed.

(** A click on transcribe and the reply, nothing in between, are one
    uninterrupted call of [handleTranscribeAndFeedback]. *)
Lemma transcribe_turn (env : RoundTrip.t) (app : App.t) :
  App.pendingRuns app = [] ->
  LogView.run [LogView.TranscribeClick; LogView.ReplyArrives env] app
  = if LogView.offered LogView.TranscribeClick app
    then handleTranscribeAndFeedback env app else app.
Proof.
  intros Hnone. unfold LogView.run. cbn [fold_left].
  unfold LogView.step at 2.
  destruct (LogView.offered LogView.TranscribeClick app).
  - cbn [LogView.handle].
    unfold handleTranscribeAndFeedbackCall, handleTranscribeAndFeedback,
      handleTranscribeAndFeedbackAsync, buildCounsel.
    destruct (App.audioBlob app) as [blob|] eqn:Hblob.
    2:{ unfold LogView.step. simpl. now rewrite Hnone. }
    destruct (truthyString (App.selectedStudentId app)) as [sid|] eqn:Hsid.
    2:{ unfold LogView.step. simpl. now rewrite Hnone. }
    destruct (findStudent sid (App.students app)) as [s|] eqn:Hfind.
    + unfold LogView.step. rewrite Hnone. simpl.
      unfold handleTranscribeAndFeedbackResume. simpl.
      unfold buildCounsel. rewrite Hfind.
      destruct app; simpl in *; subst; reflexivity.
    + unfold LogView.step. simpl. now rewrite Hnone.
  - unfold LogView.step. simpl. now rewrite Hnone.
Qed.

Lemma recorderSound_same_fields (app app' : App.t) :
  App.isRecording app' = App.isRecording app ->
  App.recorders app' = App.recorders app ->
  App.mediaRecorder app' = App.mediaRecorder app ->
  App.audioBlob app' = App.audioBlob app \/ App.audioBlob app' = None ->
  App.pendingStarts app' = App.pendingStarts app ->
  App.pendingRuns app' = App.pendingRuns app ->
  App.isLoading app' = App.isLoading app ->
  recorderSound app -> recorderSound app'.
Proof.
  unfold recorderSound, recorderShape.
  intros -> -> -> Hblob -> -> -> (Hshape & Hnone & Hs & Hr & Hl).
  repeat split; trivial.
  intros Hrec. destruct Hblob as [-> | ->]; auto.
Qed.

Lemma handleTranscribeAndFeedback_fields (env : RoundTrip.t) (app : App.t) :
  App.isLoading app = false ->
  let app' := handleTranscribeAndFeedback env app in
  App.isRecording app' = App.isRecording app /\
  App.recorders app' = App.recorders app /\
  App.mediaRecorder app' = App.mediaRecorder app /\
  (App.audioBlob app' = App.audioBlob app \/ App.audioBlob app' = None) /\
  App.pendingStarts app' = App.pendingStarts app /\
  App.pendingRuns app' = App.pendingRuns app /\
  App.isLoading app' = App.isLoading app.
Proof.
  intros Hl. unfold handleTranscribeAndFeedback, handleTranscribeAndFeedbackAsync.
  destruct (App.audioBlob app) eqn:Hblob.
  2:{ cbn zeta. rewrite Hblob. repeat split; auto. }
  destruct (truthyString (App.selectedStudentId app)).
  2:{ cbn zeta. rewrite Hblob. repeat split; auto. }
  destruct (buildCounsel _ _ _ _); unfold settle; simpl;
    rewrite ?Hblob, ?Hl; repeat split; auto.
Qed.

Lemma shape_capturing (app : App.t) :
  recorderShape app -> capturing app = App.isRecording app.
Proof.
  unfold recorderShape, capturing, currentRecorder.
  destruct (App.isRecording app).
  - intros (olds & -> & -> & _). now rewrite nth_error_last.
  - intros Hall. destruct (App.mediaRecorder app) as [i|]; trivial.
    destruct (nth_error (App.recorders app) i) as [r|] eqn:Hr; trivial.
    apply nth_error_In in Hr.
    rewrite Forall_forall in Hall. now rewrite (Hall r Hr).
Qed.

Lemma shape_liveCaptures (app : App.t) :
  recorderShape app ->
  App.liveCaptures app = if App.isRecording app then 1%nat else 0%nat.
Proof.
  unfold recorderShape, App.liveCaptures.
  destruct (App.isRecording app).
  - intros (olds & -> & _ & Hall).
    now rewrite filter_app, released_not_live.
  - intros Hall. now rewrite released_not_live.
Qed.

Lemma shape_not_queued (app : App.t) :
  recorderShape app -> firstQueued (App.recorders app) = None.
Proof.
  unfold recorderShape. destruct (App.isRecording app).
  - intros (olds & -> & _ & Hall). now rewrite firstQueued_last.
  - apply released_not_queued.
Qed.

(** A click on stop and the events of the recorder, nothing in
    between, in a state of the regular shape. *)
Lemma stop_turn (data : Blob.t) (app : App.t) :
  recorderShape app ->
  LogView.run [LogView.StopClick; LogView.RecorderStopped data] app
  = if LogView.offered LogView.StopClick app
    then recorderStopped data (stopRecording app) else app.
Proof.
  intros Hshape. unfold LogView.run. cbn [fold_left].
  unfold LogView.step at 2.
  destruct (LogView.offered LogView.StopClick app) eqn:Hoffered.
  - cbn [LogView.handle].
    assert (Hrec : App.isRecording app = true).
    { simpl in Hoffered. now destruct (App.isRecording app);
        [|rewrite andb_false_r in Hoffered]. }
    unfold recorderShape in Hshape. rewrite Hrec in Hshape.
    destruct Hshape as (olds & Hrecs & Hcur & Hall).
    unfold LogView.step.
    replace (LogView.offered (LogView.RecorderStopped data) (stopRecording app)) with true;
      trivial.
    unfold stopRecording, currentRecorder. rewrite Hcur, Hrecs, nth_error_last. simpl.
    now rewrite setNth_last, firstQueued_last.
  - unfold LogView.step. simpl. now rewrite (shape_not_queued app Hshape).
Qed.

Lemma stop_turn_state (data : Blob.t) (app : App.t) :
  recorderShape app -> App.isRecording app = true ->
  let app' := recorderStopped data (stopRecording app) in
  App.isRecording app' = false /\
  Forall released (App.recorders app') /\
  App.audioBlob app'
  = Some (Blob.ofChunks (App.audioChunks app ++ [data]) "audio/webm") /\
  App.students app' = App.students app /\
  App.selectedStudentId app' = App.selectedStudentId app /\
  App.isLoading app' = App.isLoading app /\
  App.pendingStarts app' = App.pendingStarts app /\
  App.pendingRuns app' = App.pendingRuns app /\
  App.alerts app' = App.alerts app.
Proof.
  intros Hshape Hrec. unfold recorderShape in Hshape. rewrite Hrec in Hshape.
  destruct Hshape as (olds & Hrecs & Hcur & Hall).
  unfold stopRecording, currentRecorder. rewrite Hcur, Hrecs, nth_error_last. simpl.
  rewrite setNth_last. unfold recorderStopped. simpl.
  rewrite firstQueued_last by trivial. simpl. rewrite setNth_last.
  repeat split. apply Forall_app. split; trivial. now repeat constructor.
Qed.

Section TurnFacts.
Context {collation : Collation}.

Lemma appRun_app (events more : list AppEvent) :
  appRun (events ++ more) = fold_left (fun app e => appStep e app) more (appRun events).
Proof. unfold appRun. apply fold_left_app. Qed.

Lemma logRun_appSteps (events : list LogView.Event) (app : App.t) :
  fold_left (fun app e => appStep e app) (map OnLogTab events) app
  = LogView.run events app.
Proof.
  revert app. induction events as [|e events IH]; simpl; intros app; trivial.
Qed.

Lemma turn_sound (turn : Turn) (app : App.t) :
  recorderWorks turn = true -> recorderSound app ->
  recorderSound (fold_left (fun app e => appStep e app) (turnEvents turn) app).
Proof.
  intros Hworks Hsound. pose proof Hsound as (Hshape & Hblob & Hs & Hr & Hl).
  destruct turn as [answer|data|env|sid| |now student|u|sid cid image notes].
  - change (turnEvents (Starts answer))
      with (map OnLogTab [LogView.StartClick; LogView.DeviceAnswers answer]).
    rewrite logRun_appSteps, (start_turn answer app Hs).
    destruct (LogView.offered LogView.StartClick app) eqn:Hoffered; trivial.
    destruct (start_offered app Hoffered) as (_ & Hidle & _).
    destruct answer as [|error|error|error]; try discriminate.
    + unfold recorderSound, recorderShape in *. rewrite Hidle in Hshape.
      unfold startRecording, startRecordingResume, startRecordingCall. simpl.
      repeat split; trivial. exists (App.recorders app). auto.
    + apply recorderSound_same_fields with (app := app); trivial;
        unfold startRecording, startRecordingResume, startRecordingCall; simpl; auto.
  - change (turnEvents (Stops data))
      with (map OnLogTab [LogView.StopClick; LogView.RecorderStopped data]).
    rewrite logRun_appSteps, (stop_turn data app Hshape).
    destruct (LogView.offered LogView.StopClick app) eqn:Hoffered; trivial.
    assert (Hrec : App.isRecording app = true).
    { simpl in Hoffered. now destruct (App.isRecording app);
        [|rewrite andb_false_r in Hoffered]. }
    destruct (stop_turn_state data app Hshape Hrec)
      as (Hi & Hall & _ & _ & _ & Hl' & Hs' & Hr' & _).
    unfold recorderSound, recorderShape. rewrite Hi.
    repeat split; trivial; try congruence.
  - change (turnEvents (Transcribes env))
      with (map OnLogTab [LogView.TranscribeClick; LogView.ReplyArrives env]).
    rewrite logRun_appSteps, (transcribe_turn env app Hr).
    destruct (LogView.offered LogView.TranscribeClick app); trivial.
    destruct (handleTranscribeAndFeedback_fields env app Hl)
      as (H1 & H2 & H3 & H4 & H5 & H6 & H7).
    now apply recorderSound_same_fields with (app := app).
  - simpl. unfold LogView.step.
    destruct (LogView.offered _ app); trivial.
  - simpl. unfold LogView.step.
    destruct (LogView.offered _ app); trivial.
  - simpl. apply recorderSound_same_fields with (app := app); simpl; auto.
  - simpl. apply recorderSound_same_fields with (app := app); simpl; auto.
  - simpl. apply recorderSound_same_fields with (app := app); simpl; auto.
Qed.

Lemma turns_sound (turns : list Turn) :
  forallb recorderWorks turns = true -> recorderSound (appRun (turnsEvents turns)).
Proof.
  induction turns as [|turn turns IH] using rev_ind; intros Hworks.
  - repeat split; try constructor; discriminate.
  - rewrite forallb_app in Hworks. apply andb_prop in Hworks.
    destruct Hworks as [Hturns Hturn]. simpl in Hturn. rewrite andb_true_r in Hturn.
    unfold turnsEvents. rewrite flat_map_app, appRun_app. simpl. rewrite app_nil_r.
    apply turn_sound; auto.
Qed.
End TurnFacts.

(** ** The recorder over runs made of turns *)

Section AppFacts.
Context {collation : Collation}.

Lemma appRun_snoc (events : list AppEvent) (e : AppEvent) :
  appRun (events ++ [e]) = appStep e (appRun events).
Proof. unfold appRun. now rewrite fold_left_app. Qed.

(** X8.  In every state [App] reaches from mount by a run made of
    turns (each click on start, stop or transcribe followed by the answer
    it waits for before anything else happens, and any calls of the
    handlers given to the other views) in which the recorder could be
    built and started whenever a stream was granted: [isRecording] is true
    exactly when the current recorder is recording; at most one capture is
    live, and none while idle, where [stopRecording] changes nothing; while
    recording no captured payload is pending, so transcription is not on
    offer; and no call is suspended. *)
Theorem recorder_sound_in_every_state (turns : list Turn) :
  forallb recorderWorks turns = true ->
  let app := appRun (turnsEvents turns) in
  capturing app = App.isRecording app /\
  (App.liveCaptures app <= 1)%nat /\
  (App.isRecording app = false ->
   App.liveCaptures app = 0%nat /\ stopRecording app = app) /\
  (App.isRecording app = true ->
   App.audioBlob app = None /\
   LogView.offered LogView.TranscribeClick app = false) /\
  (App.pendingStarts app = 0%nat /\ App.pendingRuns app = [] /\
   App.isLoading app = false).
Proof.
  intros Hworks app.
  destruct (turns_sound turns Hworks) as (Hshape & Hblob & Hpending).
  fold app in Hshape, Hblob, Hpending.
  pose proof (shape_liveCaptures app Hshape) as Hlive.
  pose proof (shape_capturing app Hshape) as Hcapturing.
  split; trivial.
  split; [rewrite Hlive; destruct (App.isRecording app); lia|].
  split.
  - intros Hidle. split; [now rewrite Hlive, Hidle|].
    apply stopRecording_idle. now rewrite Hcapturing.
  - split; trivial. intros Hrec. split; [auto|].
    simpl. rewrite (Hblob Hrec).
    now destruct (LogView.selectedStudent app).
Qed.

(** X9.  The roster of every state [App] reaches is one obtained from
    the empty roster by registrations, updates, prepended sessions and
    saved annotations, hence sorted by key whatever tab produced it. *)
Theorem app_roster_is_a_roster (events : list AppEvent) :
  (exists ops, App.students (appRun events) = rosterAfter ops) /\
  StronglySorted (precedes compareStudents) (App.students (appRun events)).
Proof.
  assert (H : exists ops, App.students (appRun events) = rosterAfter ops).
  { induction events as [|e events IH] using rev_ind.
    - now exists [].
    - rewrite appRun_snoc. destruct IH as [ops IH].
      destruct e as [e|now student|u|sid cid image notes]; simpl.
      + unfold LogView.step.
        destruct (LogView.offered e (appRun events)); [|now exists ops].
        destruct e as [sid| | |answer| |data| |env]; simpl;
          try (now exists ops).
        * destruct answer; now exists ops.
        * unfold stopRecording.
          destruct (App.mediaRecorder (appRun events)); [|now exists ops].
          destruct (currentRecorder (appRun events)) as [r|]; [|now exists ops].
          destruct (MediaRecorder.isRecordingState r); now exists ops.
        * unfold recorderStopped.
          destruct (firstQueued (App.recorders (appRun events))); now exists ops.
        * unfold handleTranscribeAndFeedbackCall.
          destruct (App.audioBlob (appRun events)); [|now exists ops].
          destruct (truthyString (App.selectedStudentId (appRun events))) as [sid|];
            [|now exists ops].
          destruct (findStudent sid (App.students (appRun events))); now exists ops.
        * unfold handleTranscribeAndFeedbackResume.
          destruct (App.pendingRuns (appRun events)) as [|run rest]; [now exists ops|].
          destruct (buildCounsel _ _ _ _) as [c|]; simpl; [|now exists ops].
          exists (ops ++ [PrependSession (PendingRun.selectedStudentId run) c]).
          now rewrite fold_applyOp_app, IH.
      + exists (ops ++ [Register now student]). now rewrite fold_applyOp_app, IH.
      + exists (ops ++ [Update u]). now rewrite fold_applyOp_app, IH.
      + exists (ops ++ [PatchSession sid cid image notes]).
        now rewrite fold_applyOp_app, IH. }
  split; trivial. destruct H as [ops ->]. apply roster_sorted.
Qed.
End AppFacts.

Lemma recorder_sound_in_every_state_witness :
  let turns := [Adds 1 (FormData.mk "3" "12" "Kim" "" "");
                Selects "1"; Starts Granted;
                Stops (Blob.mk [Byte.x52] ""); Starts (Denied "NotAllowedError");
                Starts Granted] in
  let app := appRun (collation := codeUnitCollation) (turnsEvents turns) in
  App.isRecording app = true /\ List.length (App.recorders app) = 2%nat /\
  App.audioBlob app = None.
Proof.
  intros turns app. split; [reflexivity|]. split; [reflexivity|].
  apply (proj2 (proj2 (proj2 (recorder_sound_in_every_state
                                (collation := codeUnitCollation) turns eq_refl)))).
  reflexivity.
Defined.

(** ** One recording *)






Section RecordingFacts.
Context {collation : Collation}.


End RecordingFacts.


